(** * PNG Property dashboard: analytics and job-monitoring core of App.jsx

    A shallow embedding of the algorithmic parts of
    [src/frontend/src/App.jsx]: the market-value verdict computed in
    [mockListings], the middleman flag of [ListingRow] and [FlagsView],
    the bubble radius of [HeatmapViz], the supply/demand labels of
    [SupplyDemand] and [AnalyticsView], the geometry of [LineChart] and
    the polling effect of [ScrapePanel].

    Numbers.  A JavaScript number is modelled by [JS.number]: an exact
    rational or one of the three IEEE special values.  Arithmetic follows
    IEEE-754 on the special values (so [0/0] is [NaN], [x/0] is an
    infinity, comparisons with [NaN] are false) and is exact on finite
    values: binary rounding and the sign of zero are not modelled.  A
    field that may be absent from an object is an [option]; [None] plays
    [undefined].  Listing counts are natural numbers ([N]), and the bubble
    radius, which takes a square root of their quotient, is a real number
    ([R]). *)

From Stdlib Require Import QArith Qround Qminmax ZArith Lia Lqa Bool String.
From Stdlib Require Import Reals Lra.
From stdpp Require Import base option list strings pretty gmap.

Local Open Scope Q_scope.

(** ** JavaScript numbers *)

Module JS.

Inductive number : Type :=
| Fin (q : Q)
| PInf
| NInf
| NaN.

(** [undefined] or a number: what reading a numeric property yields. *)
Definition value : Type := option number.

Definition sgn (a : number) : comparison :=
  match a with
  | Fin q => q ?= 0
  | PInf => Gt
  | NInf => Lt
  | NaN => Eq
  end.

Definition sgn_mul (c1 c2 : comparison) : comparison :=
  match c1, c2 with
  | Eq, _ | _, Eq => Eq
  | Gt, c => c
  | Lt, c => CompOpp c
  end.

(** The infinity of the given sign; an indeterminate sign is [NaN]. *)
Definition inf_of (c : comparison) : number :=
  match c with
  | Gt => PInf
  | Lt => NInf
  | Eq => NaN
  end.

Definition neg (a : number) : number :=
  match a with
  | Fin q => Fin (- q)
  | PInf => NInf
  | NInf => PInf
  | NaN => NaN
  end.

Definition add (a b : number) : number :=
  match a, b with
  | NaN, _ | _, NaN => NaN
  | Fin x, Fin y => Fin (x + y)
  | PInf, NInf | NInf, PInf => NaN
  | PInf, _ | _, PInf => PInf
  | NInf, _ | _, NInf => NInf
  end.

Definition sub (a b : number) : number := add a (neg b).

Definition mul (a b : number) : number :=
  match a, b with
  | NaN, _ | _, NaN => NaN
  | Fin x, Fin y => Fin (x * y)
  | _, _ => inf_of (sgn_mul (sgn a) (sgn b))
  end.

Definition div (a b : number) : number :=
  match a, b with
  | NaN, _ | _, NaN => NaN
  | Fin x, Fin y => if Qeq_bool y 0 then inf_of (x ?= 0) else Fin (x / y)
  | Fin _, _ => Fin 0
  | _, Fin y => inf_of (sgn_mul (sgn a) (if Qeq_bool y 0 then Gt else y ?= 0))
  | _, _ => NaN
  end.

(** Ordering; [None] when either side is [NaN]. *)
Definition compare (a b : number) : option comparison :=
  match a, b with
  | NaN, _ | _, NaN => None
  | Fin x, Fin y => Some (x ?= y)
  | PInf, PInf | NInf, NInf => Some Eq
  | PInf, _ | _, NInf => Some Gt
  | NInf, _ | _, PInf => Some Lt
  end.

Definition lt (a b : number) : bool :=
  match compare a b with Some Lt => true | _ => false end.
Definition gt (a b : number) : bool :=
  match compare a b with Some Gt => true | _ => false end.
Definition le (a b : number) : bool :=
  match compare a b with Some Lt | Some Eq => true | _ => false end.
Definition ge (a b : number) : bool :=
  match compare a b with Some Gt | Some Eq => true | _ => false end.

(** [Math.min] and [Math.max] of two arguments, and of a spread list
    ([Math.min()] is [Infinity], [Math.max()] is [-Infinity]). *)
Definition min (a b : number) : number :=
  match compare a b with
  | None => NaN
  | Some Gt => b
  | Some _ => a
  end.

Definition max (a b : number) : number :=
  match compare a b with
  | None => NaN
  | Some Lt => b
  | Some _ => a
  end.

Definition min_list (l : list number) : number := foldr min PInf l.
Definition max_list (l : list number) : number := foldr max NInf l.

(** [Math.round]: the nearest integer, ties towards [+Infinity]. *)
Definition round (a : number) : number :=
  match a with
  | Fin q => Fin (inject_Z (Qfloor (q + (1 # 2))))
  | _ => a
  end.

(** Truthiness: [0] and [NaN] are falsy, as is [undefined]. *)
Definition truthy (a : number) : bool :=
  match a with
  | Fin q => negb (Qeq_bool q 0)
  | NaN => false
  | _ => true
  end.

Definition truthyV (v : value) : bool :=
  match v with
  | Some a => truthy a
  | None => false
  end.

(** [ToNumber] on a possibly absent property. *)
Definition toNumber (v : value) : number :=
  match v with
  | Some a => a
  | None => NaN
  end.

(** [a || d] for numbers and for a possibly absent property. *)
Definition or (a d : number) : number := if truthy a then a else d.
Definition orV (v : value) (d : number) : number :=
  match v with
  | Some a => or a d
  | None => d
  end.

Definition finite (a : number) : Prop := exists q, a = Fin q.

(** How evaluating a function body ends: with a value, or abruptly with
    a thrown condition. *)
Inductive condition : Type := InvalidBenchmark.

Inductive completion (A : Type) : Type :=
| Normal (a : A)
| Throw (e : condition).

Arguments Normal {A} a.
Arguments Throw {A} e.

End JS.

Abbreviation Fin := JS.Fin.
Abbreviation NaN := JS.NaN.

(** ** Mock data and the market-value verdict ([mockListings], lines 17-52) *)

Inductive Label : Type := Deal | Fair | Overpriced.

Definition Label_eqb (a b : Label) : bool :=
  match a, b with
  | Deal, Deal | Fair, Fair | Overpriced, Overpriced => true
  | _, _ => false
  end.

Record MarketValue : Type := {
  label : Label;
  color : string;
  pct_vs_avg : JS.number
}.

Record Listing : Type := {
  listing_id : string;
  suburb : string;
  price_monthly_k : JS.number;
  market_value : option MarketValue
}.

Definition SUBURBS : list string :=
  ["Waigani"; "Boroko"; "Gerehu"; "Gordons"; "Hohola"; "Tokarara"; "Koki";
   "Badili"; "Six Mile"; "Eight Mile"]%string.

Module mockListings.

(** The object literal [benchmarks] of line 24. *)
Definition benchmarks : gmap string JS.number :=
  list_to_map
    [("Waigani", Fin 4470); ("Boroko", Fin 3150); ("Gerehu", Fin 1880);
     ("Gordons", Fin 5957); ("Hohola", Fin 1600); ("Tokarara", Fin 2275);
     ("Koki", Fin 2900); ("Badili", Fin 3325); ("Six Mile", Fin 1450);
     ("Eight Mile", Fin 1225)]%string.

(** Line 30, over any benchmark table: [benchmarks[suburb] || 2500]. *)
Definition base (table : gmap string JS.number) (sub : string) : JS.number :=
  JS.orV (table !! sub) (Fin 2500).

(** Line 31; [rnd] is the value [Math.random()] returned. *)
Definition price (base rnd : JS.number) : JS.number :=
  JS.max (Fin 800)
         (JS.round (JS.mul base (JS.add (Fin (3 # 4)) (JS.mul rnd (Fin (3 # 5)))))).

(** Line 33. *)
Definition pct (price avg : JS.number) : JS.number :=
  JS.mul (JS.div (JS.sub price avg) avg) (Fin 100).

(** Line 34. *)
Definition mv (price avg : JS.number) : MarketValue :=
  let pct := pct price avg in
  if JS.le pct (Fin (-15)) then
    {| label := Deal; color := "#4ade80"; pct_vs_avg := pct |}
  else if JS.ge pct (Fin 15) then
    {| label := Overpriced; color := "#f87171"; pct_vs_avg := pct |}
  else
    {| label := Fair; color := "#facc15"; pct_vs_avg := pct |}.

(** Lines 30-34 for a listing of the given suburb and price: the verdict
    against the suburb's benchmark.  The body has no [throw]; it always
    completes normally. *)
Definition classify (table : gmap string JS.number) (sub : string)
    (price : JS.number) : JS.completion MarketValue :=
  let avg := base table sub in
  JS.Normal (mv price avg).

(** The [i]-th element built by [Array.from], with the random draw for
    the price given; the fields the dashboard's classifiers read. *)
Definition listing (table : gmap string JS.number) (rnd : JS.number)
    (i : nat) : Listing :=
  let sub := default ""%string (SUBURBS !! (i mod length SUBURBS)%nat) in
  let base := base table sub in
  let price := price base rnd in
  let avg := base in
  {| listing_id := "mock-" +:+ pretty i;
     suburb := sub;
     price_monthly_k := price;
     market_value := Some (mv price avg) |}.

(** [mockListings(n)]; [rnd i] is the random draw behind the price of
    the element of index [i]. *)
Definition mockListings (table : gmap string JS.number) (rnd : nat -> JS.number)
    (n : nat) : list Listing :=
  List.map (fun i => listing table (rnd i) i) (seq 0 n).

End mockListings.

(** ** Middleman flag ([ListingRow], [FlagsView]) *)

(** Line 246: [l.market_value?.label==="Overpriced" &&
    l.market_value?.pct_vs_avg>40]. *)
Definition isFlag (l : Listing) : bool :=
  match market_value l with
  | Some m => Label_eqb (label m) Overpriced && JS.gt (pct_vs_avg m) (Fin 40)
  | None => false
  end.

(** What a table row shows of a listing: the market-value badge of
    [MvBadge] (nothing without a market value), and whether the row is
    tinted and carries the flag marker. *)
Record Row : Type := {
  row_suburb : string;
  row_price : JS.number;
  row_badge : option (Label * JS.number);
  row_flagged : bool
}.

Definition MvBadge (m : option MarketValue) : option (Label * JS.number) :=
  match m with
  | Some m => Some (label m, pct_vs_avg m)
  | None => None
  end.

Definition ListingRow (l : Listing) : Row :=
  let isFlag := isFlag l in
  {| row_suburb := suburb l;
     row_price := price_monthly_k l;
     row_badge := MvBadge (market_value l);
     row_flagged := isFlag |}.

Module FlagsView.

(** Lines 655-658.  [d] is the [flagged] array of the service's answer,
    [None] when the request failed or the answer has none; [mock] is the
    value of [mockListings(60)]. *)
Definition flagged (d : option (list Listing)) (mock : list Listing)
    : list Listing :=
  match d with
  | Some fl => fl
  | None =>
      List.filter
        (fun l =>
           match market_value l with
           | Some m =>
               Label_eqb (label m) Overpriced && JS.gt (pct_vs_avg m) (Fin 40)
           | None => false
           end)
        mock
  end.

End FlagsView.

(** A listing as [mockListings] builds them, of the given price and
    classified against the given benchmark. *)
Definition listing_at (price avg : Q) : Listing :=
  {| listing_id := "mock-0"; suburb := "Waigani"; price_monthly_k := Fin price;
     market_value := Some (mockListings.mv (Fin price) (Fin avg)) |}.

(** ** Supply and demand ([SupplyDemand], [AnalyticsView]) *)

Record SupplyStat : Type := {
  sd_suburb : string;
  supply : JS.value;
  demand_score : JS.value;
  sd_avg_price : JS.value
}.

Inductive SDLabel : Type := HighDemand | Oversupply | Balanced.

Module SupplyDemand.

(** Line 210: [Math.max(...data.map(d=>d.supply||0))]. *)
Definition maxS (data : list SupplyStat) : JS.number :=
  JS.max_list (List.map (fun d => JS.orV (supply d) (Fin 0)) data).

(** [Math.min(100,(d.supply/maxS)*100)] of line 213. *)
Definition supplyPct (maxS : JS.number) (d : SupplyStat) : JS.number :=
  JS.min (Fin 100) (JS.mul (JS.div (JS.toNumber (supply d)) maxS) (Fin 100)).

(** Line 213. *)
Definition ratio (maxS : JS.number) (d : SupplyStat) : JS.number :=
  JS.div (JS.orV (demand_score d) (Fin 50)) (JS.or (supplyPct maxS d) (Fin 1)).

(** Line 214. *)
Definition label (maxS : JS.number) (d : SupplyStat) : SDLabel :=
  let ratio := ratio maxS d in
  if JS.gt ratio (Fin (13 # 10)) then HighDemand
  else if JS.lt ratio (Fin (7 # 10)) then Oversupply
  else Balanced.

(** The component: nothing for absent or empty data, else one labelled
    entry for each of the first ten records. *)
Definition render (data : list SupplyStat) : option (list (string * SDLabel)) :=
  match data with
  | [] => None
  | _ =>
      let maxS := maxS data in
      Some (List.map (fun d => (sd_suburb d, label maxS d)) (take 10 data))
  end.

End SupplyDemand.

Module AnalyticsView.

(** Line 609. *)
Definition maxSup (sdData : list SupplyStat) : JS.number :=
  JS.max_list (List.map (fun d => JS.orV (supply d) (Fin 0)) sdData).

(** Line 629. *)
Definition ratio (maxSup : JS.number) (d : SupplyStat) : JS.number :=
  JS.div (JS.orV (demand_score d) (Fin 50))
         (JS.or (JS.min (Fin 100)
                        (JS.mul (JS.div (JS.toNumber (supply d)) maxSup) (Fin 100)))
                (Fin 50)).

(** Line 630. *)
Definition label (maxSup : JS.number) (d : SupplyStat) : SDLabel :=
  let ratio := ratio maxSup d in
  if JS.gt ratio (Fin (13 # 10)) then HighDemand
  else if JS.lt ratio (Fin (7 # 10)) then Oversupply
  else Balanced.

(** The supply/demand cards: one for every record. *)
Definition cards (sdData : list SupplyStat) : list (string * SDLabel) :=
  let maxSup := maxSup sdData in
  List.map (fun d => (sd_suburb d, label maxSup d)) sdData.

End AnalyticsView.

(** The supply/demand rule in the specification's words (section 4.5),
    for comparison with the two views: the normalised supply percentage
    with a guard for [maxSupply == 0], a zero percentage treated as High
    Demand, and else the thresholds on [demand_score / supplyPct]. *)
Definition SupplyDemandClassifier_spec (demand_score supply maxSupply : Q) : SDLabel :=
  let supplyPct :=
    if Qeq_bool maxSupply 0 then 0 else Qmin 100 (supply / maxSupply * 100) in
  if Qeq_bool supplyPct 0 then HighDemand
  else
    let ratio := demand_score / supplyPct in
    if Qle_bool ratio (13 # 10) then
      (if Qle_bool (7 # 10) ratio then Balanced else Oversupply)
    else HighDemand.

(** What the thresholds 1.3 and 0.7 make of a ratio [r]. *)
Definition sd_thresholds (r : Q) (l : SDLabel) : Prop :=
  (l = HighDemand <-> 13 # 10 < r) /\
  (l = Oversupply <-> r < 7 # 10) /\
  (l = Balanced <-> 7 # 10 <= r /\ r <= 13 # 10).

(** Sample records: the suburb with the most listings, one with demand
    score 0 and 30 listings, and one with no listings at demand score 60. *)
Definition sd_peak : SupplyStat :=
  {| sd_suburb := "Waigani"; supply := Some (Fin 100);
     demand_score := Some (Fin 90); sd_avg_price := Some (Fin 4470) |}.
Definition sd_no_demand : SupplyStat :=
  {| sd_suburb := "Koki"; supply := Some (Fin 30);
     demand_score := Some (Fin 0); sd_avg_price := Some (Fin 2900) |}.
Definition sd_no_supply : SupplyStat :=
  {| sd_suburb := "Badili"; supply := Some (Fin 0);
     demand_score := Some (Fin 60); sd_avg_price := Some (Fin 3325) |}.

(** ** Heatmap bubbles ([HeatmapViz]) *)

(** A suburb of the heatmap answer.  [listings] is a count, absent when
    the object has none. *)
Record HeatSuburb : Type := {
  hm_suburb : string;
  hm_avg_price : JS.value;
  listings : option N;
  lat : JS.value;
  lng : JS.value
}.

(** A listing count as a real number. *)
Definition N2R (n : N) : R := IZR (Z.of_N n).

Module HeatmapViz.

Definition LAT0 : JS.number := Fin (-9505 # 1000).
Definition LAT1 : JS.number := Fin (-937 # 100).
Definition LNG0 : JS.number := Fin (14713 # 100).
Definition LNG1 : JS.number := Fin (14721 # 100).
Definition W : JS.number := Fin 520.
Definition H : JS.number := Fin 320.

(** Lines 163-164. *)
Definition toX (lng : JS.number) : JS.number :=
  JS.mul (JS.div (JS.sub lng LNG0) (JS.sub LNG1 LNG0)) W.
Definition toY (lat : JS.number) : JS.number :=
  JS.mul (JS.div (JS.sub lat LAT0) (JS.sub LAT1 LAT0)) H.

(** [s.listings || k]: a zero or absent count gives way to [k]. *)
Definition listings_or (v : option N) (k : N) : N :=
  match v with
  | Some n => if (n =? 0)%N then k else n
  | None => k
  end.

(** Line 165: [Math.max(...suburbs.map(s=>s.listings||1))].  Line 161
    returns before it when [suburbs] is empty, so the maximum is over at
    least one count, each at least 1. *)
Definition maxL (suburbs : list HeatSuburb) : N :=
  foldr N.max 0%N (List.map (fun s => listings_or (listings s) 1) suburbs).

(** Line 166: [22+((l/maxL)**0.5)*28]; the power [0.5] of a quotient of
    counts is its square root. *)
Definition rOf (maxL l : N) : R :=
  (22 + sqrt (N2R l / N2R maxL) * 28)%R.

(** The radius [r] of line 173. *)
Definition r (suburbs : list HeatSuburb) (s : HeatSuburb) : R :=
  rOf (maxL suburbs) (listings_or (listings s) 20).

Record Bubble : Type := {
  cx : JS.number;
  cy : JS.number;
  radius : R
}.

(** Lines 171-173: no bubble without a latitude and a longitude; else
    its centre and radius (the colours are left out). *)
Definition bubble (suburbs : list HeatSuburb) (s : HeatSuburb) : option Bubble :=
  if negb (JS.truthyV (lat s)) || negb (JS.truthyV (lng s)) then None
  else
    Some {| cx := toX (JS.toNumber (lng s));
            cy := toY (JS.toNumber (lat s));
            radius := r suburbs s |}.

Definition render (suburbs : list HeatSuburb) : option (list (option Bubble)) :=
  match suburbs with
  | [] => None
  | _ => Some (List.map (bubble suburbs) suburbs)
  end.

End HeatmapViz.

(** A suburb with [n] listings, and a data set of three of them, with
    80, 0 and 5 listings. *)
Definition hm_with (name : string) (n : N) : HeatSuburb :=
  {| hm_suburb := name; hm_avg_price := Some (Fin 3000); listings := Some n;
     lat := Some (Fin (-945 # 100)); lng := Some (Fin (14717 # 100)) |}.
Definition hm_sample : list HeatSuburb :=
  [hm_with "Waigani" 80; hm_with "Koki" 0; hm_with "Badili" 5].

(** ** Trend chart ([LineChart]) *)

Inductive Key : Type := Waigani | Boroko | Gerehu.

(** A point of the trend series: the week label and the value of each of
    the three suburbs the chart reads, absent when the object has none. *)
Record TrendPoint : Type := {
  week : string;
  at_Waigani : JS.value;
  at_Boroko : JS.value;
  at_Gerehu : JS.value
}.

(** [d[k]]. *)
Definition get (d : TrendPoint) (k : Key) : JS.value :=
  match k with
  | Waigani => at_Waigani d
  | Boroko => at_Boroko d
  | Gerehu => at_Gerehu d
  end.

(** [d] with the property [k] removed. *)
Definition unset (k : Key) (d : TrendPoint) : TrendPoint :=
  match k with
  | Waigani => {| week := week d; at_Waigani := None;
                  at_Boroko := at_Boroko d; at_Gerehu := at_Gerehu d |}
  | Boroko => {| week := week d; at_Waigani := at_Waigani d;
                 at_Boroko := None; at_Gerehu := at_Gerehu d |}
  | Gerehu => {| week := week d; at_Waigani := at_Waigani d;
                 at_Boroko := at_Boroko d; at_Gerehu := None |}
  end.

Record Circle : Type := {
  c_key : nat;
  c_cx : JS.number;
  c_cy : JS.number
}.

(** The group drawn for one key: the polyline's vertices in order, and
    for every point index the circle or nothing. *)
Record Series : Type := {
  s_key : Key;
  polyline : list (JS.number * JS.number);
  circles : list (option Circle)
}.

Record Gridline : Type := {
  g_y : JS.number;
  g_label : JS.number
}.

Record TickLabel : Type := {
  t_x : JS.number;
  t_text : string
}.

Inductive ChartView : Type :=
| NoTrendData
| Chart (grid : list Gridline) (series : list (option Series))
        (xlabels : list TickLabel).

(** The segments a polyline draws: one between each two consecutive
    vertices. *)
Definition segments {A : Type} (pts : list A) : list (A * A) :=
  zip pts (tail pts).

Module LineChart.

Definition keys : list Key := [Waigani; Boroko; Gerehu].

Definition W : JS.number := Fin 560.
Definition H : JS.number := Fin 160.
Definition PL : JS.number := Fin 55.
Definition PB : JS.number := Fin 28.
Definition PT : JS.number := Fin 12.
Definition PR : JS.number := Fin 16.
Definition iW : JS.number := JS.sub (JS.sub W PL) PR.
Definition iH : JS.number := JS.sub (JS.sub H PB) PT.

Definition of_nat (i : nat) : JS.number := Fin (inject_Z (Z.of_nat i)).

(** Line 136: [trends.flatMap(d=>keys.map(k=>d[k]).filter(Boolean))]. *)
Definition allV (trends : list TrendPoint) : list JS.value :=
  List.flat_map (fun d => List.filter JS.truthyV (List.map (fun k => get d k) keys))
                trends.

(** Line 137. *)
Definition minV (trends : list TrendPoint) : JS.number :=
  JS.min_list (List.map JS.toNumber (allV trends)).
Definition maxV (trends : list TrendPoint) : JS.number :=
  JS.max_list (List.map JS.toNumber (allV trends)).
Definition range (trends : list TrendPoint) : JS.number :=
  JS.or (JS.sub (maxV trends) (minV trends)) (Fin 1).

(** Lines 138-139. *)
Definition toX (trends : list TrendPoint) (i : nat) : JS.number :=
  JS.add PL (JS.mul (JS.div (of_nat i)
                            (JS.sub (of_nat (length trends)) (Fin 1))) iW).
Definition toY (trends : list TrendPoint) (v : JS.number) : JS.number :=
  JS.sub (JS.add PT iH)
         (JS.mul (JS.div (JS.sub v (minV trends)) (range trends)) iH).

(** Lines 142-145. *)
Definition gridline (trends : list TrendPoint) (i : nat) : Gridline :=
  let v := JS.add (minV trends) (JS.mul (JS.div (of_nat i) (Fin 3)) (range trends)) in
  let y := toY trends v in
  {| g_y := y; g_label := JS.mul (JS.round (JS.div v (Fin 100))) (Fin 100) |}.

(** Line 147, before the join: the vertex of each point whose value is
    truthy, the empty string (here [None]) filtered out. *)
Definition pts (trends : list TrendPoint) (k : Key) : list (JS.number * JS.number) :=
  omap (fun p => p)
    (imap (fun i d =>
             if JS.truthyV (get d k)
             then Some (toX trends i, toY trends (JS.toNumber (get d k)))
             else None)
          trends).

(** Lines 146-153, for one key. *)
Definition series (trends : list TrendPoint) (k : Key) : option Series :=
  let pts := pts trends k in
  match pts with
  | [] => None
  | _ =>
      Some {| s_key := k;
              polyline := pts;
              circles :=
                imap (fun i d =>
                        if JS.truthyV (get d k)
                        then Some {| c_key := i;
                                     c_cx := toX trends i;
                                     c_cy := toY trends (JS.toNumber (get d k)) |}
                        else None)
                     trends |}
  end.

(** The component.  An absent [trends] behaves as the empty array. *)
Definition render (trends : list TrendPoint) : ChartView :=
  match trends with
  | [] => NoTrendData
  | _ =>
      Chart (List.map (gridline trends) [0; 1; 2; 3]%nat)
            (List.map (series trends) keys)
            (imap (fun i d => {| t_x := toX trends i; t_text := week d |}) trends)
  end.

(** The points of key [k] that are drawn, each with its index. *)
Definition present (trends : list TrendPoint) (k : Key) : list (nat * JS.number) :=
  omap (fun p => p)
    (imap (fun i d =>
             if JS.truthyV (get d k) then Some (i, JS.toNumber (get d k)) else None)
          trends).

(** Where the chart puts the value [v] of the point of index [i]. *)
Definition vertex (trends : list TrendPoint) (iv : nat * JS.number)
    : JS.number * JS.number :=
  (toX trends iv.1, toY trends iv.2).

End LineChart.

Definition tp (w : string) (a b c : JS.value) : TrendPoint :=
  {| week := w; at_Waigani := a; at_Boroko := b; at_Gerehu := c |}.

(** A single week of data, and three weeks with a gap in the Waigani
    series. *)
Definition one_week : list TrendPoint :=
  [tp "Jan 19" (Some (Fin 4200)) (Some (Fin 3000)) (Some (Fin 1750))].
Definition gap_weeks : list TrendPoint :=
  [tp "Jan 19" (Some (Fin 4200)) (Some (Fin 3000)) (Some (Fin 1750));
   tp "Jan 26" None (Some (Fin 3025)) (Some (Fin 1770));
   tp "Feb 2" (Some (Fin 4280)) (Some (Fin 3050)) (Some (Fin 1790))].

(** What a truthiness test lets through of a property: the value when
    truthy, nothing otherwise. *)
Definition seen (v : JS.value) : JS.value :=
  if JS.truthyV v then v else None.

(** ** Scrape job panel ([ScrapePanel]) *)

Inductive Status : Type := queued | running | complete | error.

Definition terminal (st : Status) : bool :=
  match st with
  | complete | error => true
  | queued | running => false
  end.

(** The job object of the service's answers. *)
Record Job : Type := {
  job_id : option string;
  status : Status;
  progress : nat;
  collected : nat
}.

(** The state of a mounted panel and of what it has set in motion: the
    component's state and ref (lines 267-272), React's record of the
    effect of lines 281-288 (the dependencies it last ran with, and
    whether that run returned a cleanup), the browser's live interval
    timers (each with the job id its callback closed over), and the
    requests in flight. *)
Record Panel : Type := {
  sources : list string;
  pages : nat;
  includeFb : bool;
  job : option Job;
  polling : bool;
  pollRef : option nat;
  mounted : bool;
  deps : bool * option string;
  cleanup : bool;
  timers : list (nat * string);
  next_timer : nat;
  pending_trigger : nat;
  pending_status : nat;
  status_requests : list string
}.

Inductive Event : Type :=
| ToggleSrc (src : string)
| SetPages (n : nat)
| ClickStart
| TriggerResponse (data : option Job)
| Tick (id : nat)
| StatusResponse (d : option Job)
| Dismiss
| Close.

(** What the panel shows: the form, or the job with the dismiss button
    once the status is terminal. *)
Inductive PanelView : Type :=
| FormView (sources : list string) (pages : nat) (start_enabled : bool)
| JobView (j : Job) (dismiss_button : option string).

Module ScrapePanel.

Definition init : Panel :=
  {| sources := ["hausples"; "professionals"; "agencies"]%string;
     pages := 3; includeFb := false; job := None; polling := false;
     pollRef := None; mounted := true; deps := (false, None);
     cleanup := false; timers := []; next_timer := 1;
     pending_trigger := 0; pending_status := 0; status_requests := [] |}.

(** [job?.job_id], and its truthiness. *)
Definition job_id_of (j : option Job) : option string :=
  match j with
  | Some j => job_id j
  | None => None
  end.

Definition id_truthy (i : option string) : option string :=
  match i with
  | Some s => if String.eqb s "" then None else Some s
  | None => None
  end.

Definition setJob (j : option Job) (w : Panel) : Panel :=
  if mounted w then
    {| sources := sources w; pages := pages w; includeFb := includeFb w;
       job := j; polling := polling w; pollRef := pollRef w;
       mounted := mounted w; deps := deps w; cleanup := cleanup w;
       timers := timers w; next_timer := next_timer w;
       pending_trigger := pending_trigger w;
       pending_status := pending_status w;
       status_requests := status_requests w |}
  else w.

Definition setPolling (b : bool) (w : Panel) : Panel :=
  if mounted w then
    {| sources := sources w; pages := pages w; includeFb := includeFb w;
       job := job w; polling := b; pollRef := pollRef w;
       mounted := mounted w; deps := deps w; cleanup := cleanup w;
       timers := timers w; next_timer := next_timer w;
       pending_trigger := pending_trigger w;
       pending_status := pending_status w;
       status_requests := status_requests w |}
  else w.

Definition setSources (l : list string) (w : Panel) : Panel :=
  {| sources := l; pages := pages w; includeFb := includeFb w;
     job := job w; polling := polling w; pollRef := pollRef w;
     mounted := mounted w; deps := deps w; cleanup := cleanup w;
     timers := timers w; next_timer := next_timer w;
     pending_trigger := pending_trigger w;
     pending_status := pending_status w;
     status_requests := status_requests w |}.

Definition setPages (n : nat) (w : Panel) : Panel :=
  {| sources := sources w; pages := n; includeFb := includeFb w;
     job := job w; polling := polling w; pollRef := pollRef w;
     mounted := mounted w; deps := deps w; cleanup := cleanup w;
     timers := timers w; next_timer := next_timer w;
     pending_trigger := pending_trigger w;
     pending_status := pending_status w;
     status_requests := status_requests w |}.

(** [clearInterval(pollRef.current)]. *)
Definition clearInterval_pollRef (w : Panel) : Panel :=
  {| sources := sources w; pages := pages w; includeFb := includeFb w;
     job := job w; polling := polling w; pollRef := pollRef w;
     mounted := mounted w; deps := deps w; cleanup := cleanup w;
     timers :=
       match pollRef w with
       | Some id => List.filter (fun t => negb (Nat.eqb (fst t) id)) (timers w)
       | None => timers w
       end;
     next_timer := next_timer w;
     pending_trigger := pending_trigger w;
     pending_status := pending_status w;
     status_requests := status_requests w |}.

(** The effect body of lines 282-287, run with the dependencies [d]:
    nothing (and no cleanup) unless polling with a job id; else a new
    interval, kept in [pollRef.current], and a cleanup. *)
Definition run_effect (d : bool * option string) (w : Panel) : Panel :=
  match (if polling w then id_truthy (job_id_of (job w)) else None) with
  | None =>
      {| sources := sources w; pages := pages w; includeFb := includeFb w;
         job := job w; polling := polling w; pollRef := pollRef w;
         mounted := mounted w; deps := d; cleanup := false;
         timers := timers w; next_timer := next_timer w;
         pending_trigger := pending_trigger w;
         pending_status := pending_status w;
         status_requests := status_requests w |}
  | Some jid =>
      {| sources := sources w; pages := pages w; includeFb := includeFb w;
         job := job w; polling := polling w; pollRef := Some (next_timer w);
         mounted := mounted w; deps := d; cleanup := true;
         timers := (next_timer w, jid) :: timers w;
         next_timer := S (next_timer w);
         pending_trigger := pending_trigger w;
         pending_status := pending_status w;
         status_requests := status_requests w |}
  end.

(** After the state updates of a handler React renders again; when a
    dependency of the effect has changed, it runs the cleanup of the
    previous run, if that run returned one, and then the effect.  The
    render, the cleanup and the effect are taken as one step. *)
Definition commit (w : Panel) : Panel :=
  if mounted w then
    let d := (polling w, job_id_of (job w)) in
    if decide (d = deps w) then w
    else run_effect d (if cleanup w then clearInterval_pollRef w else w)
  else w.

(** Unmounting runs the pending cleanup. *)
Definition unmount (w : Panel) : Panel :=
  let w := if cleanup w then clearInterval_pollRef w else w in
  {| sources := sources w; pages := pages w; includeFb := includeFb w;
     job := job w; polling := polling w; pollRef := pollRef w;
     mounted := false; deps := deps w; cleanup := false;
     timers := timers w; next_timer := next_timer w;
     pending_trigger := pending_trigger w;
     pending_status := pending_status w;
     status_requests := status_requests w |}.

(** Line 274. *)
Definition toggleSrc (src : string) (p : list string) : list string :=
  if existsb (String.eqb src) p
  then List.filter (fun x => negb (String.eqb x src)) p
  else p ++ [src].

Definition add_requests (trig stat : nat) (log : list string) (w : Panel) : Panel :=
  {| sources := sources w; pages := pages w; includeFb := includeFb w;
     job := job w; polling := polling w; pollRef := pollRef w;
     mounted := mounted w; deps := deps w; cleanup := cleanup w;
     timers := timers w; next_timer := next_timer w;
     pending_trigger := trig; pending_status := stat;
     status_requests := log |}.

(** One event; [None] when it cannot happen in the state: a click on a
    button that is not shown or is disabled, a tick of a timer that is
    not live, an answer to a request that was not sent. *)
Definition step (e : Event) (w : Panel) : option Panel :=
  match e with
  | ToggleSrc src =>
      if mounted w && negb (bool_decide (is_Some (job w)))
      then Some (setSources (toggleSrc src (sources w)) w) else None
  | SetPages n =>
      if mounted w && negb (bool_decide (is_Some (job w)))
      then Some (setPages n w) else None
  | ClickStart =>
      (* the button of line 316; [trigger] up to its [await] *)
      if mounted w && negb (bool_decide (is_Some (job w)))
         && negb (Nat.eqb (length (sources w)) 0)
      then Some (add_requests (S (pending_trigger w)) (pending_status w)
                              (status_requests w) w)
      else None
  | TriggerResponse data =>
      (* line 278 *)
      match pending_trigger w with
      | O => None
      | S n =>
          let w := add_requests n (pending_status w) (status_requests w) w in
          match data with
          | Some j => Some (commit (setPolling true (setJob (Some j) w)))
          | None => Some w
          end
      end
  | Tick id =>
      (* line 284, up to the [await] *)
      match List.find (fun t => Nat.eqb (fst t) id) (timers w) with
      | Some (_, jid) =>
          Some (add_requests (pending_trigger w) (S (pending_status w))
                             (status_requests w ++ [jid]) w)
      | None => None
      end
  | StatusResponse d =>
      (* line 285 *)
      match pending_status w with
      | O => None
      | S n =>
          let w := add_requests (pending_trigger w) n (status_requests w) w in
          match d with
          | Some j =>
              let w := setJob (Some j) w in
              if terminal (status j)
              then Some (commit (clearInterval_pollRef (setPolling false w)))
              else Some (commit w)
          | None => Some w
          end
      end
  | Dismiss =>
      (* line 333: [setJob(null); onClose()] *)
      match job w with
      | Some j =>
          if mounted w && terminal (status j)
          then Some (unmount (setJob None w)) else None
      | None => None
      end
  | Close =>
      if mounted w then Some (unmount w) else None
  end.

Fixpoint run (evs : list Event) (w : Panel) : option Panel :=
  match evs with
  | [] => Some w
  | e :: evs =>
      match step e w with
      | Some w' => run evs w'
      | None => None
      end
  end.

(** Lines 300-334. *)
Definition render (w : Panel) : PanelView :=
  match job w with
  | None =>
      FormView (sources w) (pages w) (negb (Nat.eqb (length (sources w)) 0))
  | Some j =>
      JobView j (if terminal (status j)
                 then Some (match status j with
                            | complete => "Done - Refresh Dashboard"
                            | _ => "Dismiss"
                            end)%string
                 else None)
  end.

(** The only error the panel can show: a job whose status is [error]. *)
Definition error_visible (v : PanelView) : bool :=
  match v with
  | JobView j _ => match status j with error => true | _ => false end
  | FormView _ _ _ => false
  end.

(** Idle: no job, not polling, no timer. *)
Definition idle (w : Panel) : Prop :=
  job w = None /\ polling w = false /\ timers w = [].

(** An event that accepts a new job. *)
Definition starts_job (e : Event) : bool :=
  match e with
  | TriggerResponse (Some _) => true
  | _ => false
  end.

End ScrapePanel.

(** Sample runs: a job polled to completion, and a trigger just sent. *)
Definition job1 (st : Status) (p : nat) : Job :=
  {| job_id := Some "job-1"%string; status := st; progress := p; collected := p |}.
Definition polled_twice : list Event :=
  [ClickStart; TriggerResponse (Some (job1 queued 0)); Tick 1;
   StatusResponse (Some (job1 running 40)); Tick 1].
Definition triggered : list Event := [ClickStart].
Definition after (evs : list Event) : Panel :=
  default ScrapePanel.init (ScrapePanel.run evs ScrapePanel.init).

(** At most one interval is live, and it is the one [pollRef.current]
    names, with its cleanup pending on a mounted panel. *)
Definition one_timer (w : Panel) : Prop :=
  timers w = [] \/
  exists id jid, timers w = [(id, jid)] /\ pollRef w = Some id /\
                 cleanup w = true /\ mounted w = true.

(** Polling has stopped: no interval is live, and a mounted panel is not
    polling. *)
Definition stopped (w : Panel) : Prop :=
  timers w = [] /\ (mounted w = true -> polling w = false).

(** The panel is gone and has left no interval behind. *)
Definition torn_down (w : Panel) : Prop :=
  timers w = [] /\ mounted w = false.

(** ** Utilities ([randRange], [rel], [clamp], [priceColor]) *)

(** [Math.floor]. *)
Definition Math_floor (a : JS.number) : JS.number :=
  match a with
  | Fin q => Fin (inject_Z (Qfloor q))
  | _ => a
  end.

(** Line 21; [rnd] is the value [Math.random()] returned. *)
Definition randRange (lo hi rnd : JS.number) : JS.number :=
  JS.add (Math_floor (JS.mul rnd (JS.sub hi lo))) lo.

(** What [rel] prints: [just now], or a count followed by [m ago],
    [h ago] or [d ago]. *)
Inductive RelTime : Type :=
| JustNow
| MinutesAgo (n : JS.number)
| HoursAgo (n : JS.number)
| DaysAgo (n : JS.number).

(** Line 88, from the seconds [d] elapsed since the timestamp
    ([(Date.now()-new Date(iso))/1000]; [NaN] for a date that does not
    parse). *)
Definition rel (d : JS.number) : RelTime :=
  if JS.lt d (Fin 60) then JustNow
  else if JS.lt d (Fin 3600) then MinutesAgo (Math_floor (JS.div d (Fin 60)))
  else if JS.lt d (Fin 86400) then HoursAgo (Math_floor (JS.div d (Fin 3600)))
  else DaysAgo (Math_floor (JS.div d (Fin 86400))).

(** Line 89. *)
Definition clamp (v lo hi : JS.number) : JS.number :=
  JS.max lo (JS.min hi v).

(** The three channels of the [rgb(...)] string. *)
Record RGB : Type := {
  red : JS.number;
  green : JS.number;
  blue : JS.number
}.

Module priceColor.

(** Line 93. *)
Definition t (price lo hi : JS.number) : JS.number :=
  clamp (JS.div (JS.sub price lo) (JS.sub hi lo)) (Fin 0) (Fin 1).

(** Line 94. *)
Definition lerp (t a b : JS.number) : JS.number :=
  JS.round (JS.add a (JS.mul (JS.sub b a) t)).

(** Lines 92-96. *)
Definition priceColor (price lo hi : JS.number) : RGB :=
  let t := t price lo hi in
  {| red := lerp t (Fin 32) (Fin 200);
     green := lerp t (Fin 190) (Fin 70);
     blue := lerp t (Fin 160) (Fin 45) |}.

(** The call with the default bounds [lo=1000], [hi=7000], on a price
    property that may be absent. *)
Definition of_price (price : JS.value) : RGB :=
  priceColor (JS.toNumber price) (Fin 1000) (Fin 7000).

End priceColor.

(** ** Bar chart ([BarChart]) *)

(** A datum of the chart: [d[labelKey]] and [d[valueKey]]. *)
Record Bar : Type := {
  bar_label : string;
  bar_value : JS.value
}.

Module BarChart.

(** Line 191: [Math.max(...data.map(d=>d[valueKey]||0))]. *)
Definition max (data : list Bar) : JS.number :=
  JS.max_list (List.map (fun d => JS.orV (bar_value d) (Fin 0)) data).

(** Line 200: the width of a bar, in percent. *)
Definition width (max : JS.number) (d : Bar) : JS.number :=
  JS.mul (JS.div (JS.toNumber (bar_value d)) max) (Fin 100).

(** The component: nothing for absent or empty data, else the first ten
    bars with their widths. *)
Definition render (data : list Bar) : option (list (Bar * JS.number)) :=
  match data with
  | [] => None
  | _ =>
      let max := max data in
      Some (List.map (fun d => (d, width max d)) (take 10 data))
  end.

End BarChart.

(** The width of a ranking bar of [HeatmapView], in percent (line 585):
    [clamp((s.avg_price/7000)*100,5,100)]. *)
Definition ranking_width (avg_price : JS.value) : JS.number :=
  clamp (JS.mul (JS.div (JS.toNumber avg_price) (Fin 7000)) (Fin 100))
        (Fin 5) (Fin 100).


(** ** Listings table ([ListingsView]) *)

(** A listing with the two further fields the filters read. *)
Record ListingItem : Type := {
  item : Listing;
  source_site : string;
  property_type : string
}.

(** [String.prototype.toLowerCase] on the ASCII letters, and
    [String.prototype.includes]. *)
Definition lower_ascii (c : Ascii.ascii) : Ascii.ascii :=
  let n := Ascii.nat_of_ascii c in
  if (65 <=? n)%nat && (n <=? 90)%nat then Ascii.ascii_of_nat (n + 32) else c.

Fixpoint toLowerCase (s : string) : string :=
  match s with
  | EmptyString => EmptyString
  | String c s => String (lower_ascii c) (toLowerCase s)
  end.

Definition includes (s sub : string) : bool :=
  match String.index 0 sub s with
  | Some _ => true
  | None => false
  end.

(** The filter state of lines 445-454.  An empty string is no filter;
    the market-value filter is [None] for the empty option.  The page
    starts at 1 and the buttons keep it at 1 or above. *)
Record Filters : Type := {
  f_page : positive;
  f_suburb : string;
  f_source : string;
  f_type : string;
  f_minPrice : string;
  f_maxPrice : string;
  f_mvFilter : option Label;
  f_sort : string
}.

(** The answer of [/listings], each field possibly absent. *)
Record ApiListings : Type := {
  api_listings : option (list ListingItem);
  api_total : option nat;
  api_pages : option nat
}.

(** What [load] sets: [listings], [total] and [pages]. *)
Record Loaded : Type := {
  loaded_listings : list ListingItem;
  loaded_total : nat;
  loaded_pages : nat
}.

Module ListingsView.

(** [n || k] on a count. *)
Definition count_or (n : option nat) (k : nat) : nat :=
  match n with
  | Some 0%nat | None => k
  | Some n => n
  end.

Definition nonempty (s : string) : bool := negb (String.eqb s "").

(** [l.market_value?.label===mvFilter]. *)
Definition has_label (mv : Label) (l : ListingItem) : bool :=
  match market_value (item l) with
  | Some m => Label_eqb (label m) mv
  | None => false
  end.

(** Lines 470-474: the filters of the offline path, in order. *)
Definition filtered (f : Filters) (mock : list ListingItem) : list ListingItem :=
  let ls := mock in
  let ls := if nonempty (f_suburb f)
            then List.filter (fun l => String.eqb (suburb (item l)) (f_suburb f)) ls
            else ls in
  let ls := if nonempty (f_source f)
            then List.filter
                   (fun l => includes (toLowerCase (source_site l))
                                      (toLowerCase (f_source f))) ls
            else ls in
  let ls := if nonempty (f_type f)
            then List.filter (fun l => String.eqb (property_type l) (f_type f)) ls
            else ls in
  match f_mvFilter f with
  | Some mv => List.filter (has_label mv) ls
  | None => ls
  end.

(** [ls.slice(a, b)] for [0 <= a <= b]. *)
Definition slice {A : Type} (a b : nat) (ls : list A) : list A :=
  take (b - a) (drop a ls).

(** Lines 465-476: what [load] sets from the service's answer [data]
    ([None] when the request failed); [mock] is the value of
    [mockListings(100)]. *)
Definition load (f : Filters) (data : option ApiListings)
    (mock : list ListingItem) : Loaded :=
  match data with
  | Some data =>
      let ls := default [] (api_listings data) in
      let ls := match f_mvFilter f with
                | Some mv => List.filter (has_label mv) ls
                | None => ls
                end in
      {| loaded_listings := ls;
         loaded_total := count_or (api_total data) 0;
         loaded_pages := count_or (api_pages data) 1 |}
  | None =>
      let ls := filtered f mock in
      let start := ((Pos.to_nat (f_page f) - 1) * 25)%nat in
      {| loaded_listings := slice start (start + 25) ls;
         loaded_total := length ls;
         loaded_pages := (length ls + 24) / 25 |}
  end.

Definition with_page (p : positive) (f : Filters) : Filters :=
  {| f_page := p; f_suburb := f_suburb f; f_source := f_source f;
     f_type := f_type f; f_minPrice := f_minPrice f;
     f_maxPrice := f_maxPrice f; f_mvFilter := f_mvFilter f;
     f_sort := f_sort f |}.

Definition with_prices (lo hi sort : string) (f : Filters) : Filters :=
  {| f_page := f_page f; f_suburb := f_suburb f; f_source := f_source f;
     f_type := f_type f; f_minPrice := lo; f_maxPrice := hi;
     f_mvFilter := f_mvFilter f; f_sort := sort |}.

End ListingsView.

(** A listing for the table, of the given suburb, source, type and
    price, classified against the given benchmark. *)
Definition item_at (sub src ty : string) (price avg : Q) : ListingItem :=
  {| item := {| listing_id := "mock-0"; suburb := sub;
                price_monthly_k := Fin price;
                market_value := Some (mockListings.mv (Fin price) (Fin avg)) |};
     source_site := src; property_type := ty |}.

(** What holds in the states the panel reaches: the live timer was
    started for the dependencies last committed, and a mounted panel's
    state is the one last committed. *)
Definition timer_of_deps (w : Panel) : Prop :=
  forall id jid, timers w = [(id, jid)] ->
    fst (deps w) = true /\ ScrapePanel.id_truthy (snd (deps w)) = Some jid.

Definition committed (w : Panel) : Prop :=
  mounted w = true ->
  deps w = (polling w, ScrapePanel.job_id_of (job w)).

(** A run in which the second of two polls is answered first, with the
    terminal status, while the first answer is still on its way. *)
Definition answered_out_of_order : list Event :=
  [ClickStart; TriggerResponse (Some (job1 queued 0)); Tick 1; Tick 1;
   StatusResponse (Some (job1 complete 100))].

(** * Properties *)

(** ** Facts about JavaScript numbers *)

(** Closes the cases of a threshold classification once every comparison
    has been turned into an inequality over [Q]. *)
Ltac settle_thresholds :=
  repeat split; intros;
  repeat match goal with H : _ /\ _ |- _ => destruct H end;
  first [ discriminate | reflexivity | assumption | Lqa.lra | exfalso; Lqa.lra ].

Lemma le_Fin (x y : Q) : JS.le (Fin x) (Fin y) = true <-> x <= y.
Proof.
  unfold JS.le; simpl. rewrite Qle_alt.
  destruct (x ?= y); intuition congruence.
Qed.

Lemma ge_Fin (x y : Q) : JS.ge (Fin x) (Fin y) = true <-> y <= x.
Proof.
  unfold JS.ge; simpl. rewrite Qle_alt.
  pose proof (Qcompare_antisym x y) as H. rewrite <- H.
  destruct (x ?= y); simpl; intuition congruence.
Qed.

Lemma lt_Fin (x y : Q) : JS.lt (Fin x) (Fin y) = true <-> x < y.
Proof.
  unfold JS.lt; simpl. rewrite Qlt_alt.
  destruct (x ?= y); intuition congruence.
Qed.

Lemma gt_Fin (x y : Q) : JS.gt (Fin x) (Fin y) = true <-> y < x.
Proof.
  unfold JS.gt; simpl. rewrite Qlt_alt.
  pose proof (Qcompare_antisym x y) as H. rewrite <- H.
  destruct (x ?= y); simpl; intuition congruence.
Qed.

Lemma le_Fin_false (x y : Q) : JS.le (Fin x) (Fin y) = false <-> y < x.
Proof.
  rewrite <- not_true_iff_false, le_Fin. split; [apply Qnot_le_lt | apply Qlt_not_le].
Qed.

Lemma ge_Fin_false (x y : Q) : JS.ge (Fin x) (Fin y) = false <-> x < y.
Proof.
  rewrite <- not_true_iff_false, ge_Fin. split; [apply Qnot_le_lt | apply Qlt_not_le].
Qed.

Lemma gt_Fin_false (x y : Q) : JS.gt (Fin x) (Fin y) = false <-> x <= y.
Proof.
  rewrite <- not_true_iff_false, gt_Fin. split; [apply Qnot_lt_le | apply Qle_not_lt].
Qed.

Lemma lt_Fin_false (x y : Q) : JS.lt (Fin x) (Fin y) = false <-> y <= x.
Proof.
  rewrite <- not_true_iff_false, lt_Fin. split; [apply Qnot_lt_le | apply Qle_not_lt].
Qed.

Lemma div_Fin (x y : Q) : ~ y == 0 -> JS.div (Fin x) (Fin y) = Fin (x / y).
Proof.
  intros Hy. simpl. destruct (Qeq_bool y 0) eqn:E; [|reflexivity].
  apply Qeq_bool_iff in E. contradiction.
Qed.

Lemma pct_Fin (p b : Q) :
  ~ b == 0 -> mockListings.pct (Fin p) (Fin b) = Fin ((p - b) / b * 100).
Proof.
  intros Hb. unfold mockListings.pct, JS.sub. simpl JS.add.
  change (p + - b) with (p - b). rewrite div_Fin by assumption. reflexivity.
Qed.

(** The label is a function of the percentage alone. *)
Lemma mv_label (price avg : JS.number) :
  label (mockListings.mv price avg) =
    if JS.le (mockListings.pct price avg) (Fin (-15)) then Deal
    else if JS.ge (mockListings.pct price avg) (Fin 15) then Overpriced
    else Fair.
Proof.
  unfold mockListings.mv.
  destruct (JS.le _ _); [reflexivity|]. destruct (JS.ge _ _); reflexivity.
Qed.

Lemma mv_pct (price avg : JS.number) :
  pct_vs_avg (mockListings.mv price avg) = mockListings.pct price avg.
Proof.
  unfold mockListings.mv.
  destruct (JS.le _ _); [reflexivity|]. destruct (JS.ge _ _); reflexivity.
Qed.

(** C1.  For every price [p] and benchmark [b > 0] the verdict's
    percentage is [(p - b) / b * 100], and its label is [Deal] exactly
    when that percentage is at most [-15], [Overpriced] exactly when it
    is at least [15], and [Fair] exactly in between; both boundaries are
    closed. *)
Theorem mv_label_thresholds (p b : Q) (Hb : 0 < b) :
  let pct := (p - b) / b * 100 in
  pct_vs_avg (mockListings.mv (Fin p) (Fin b)) = Fin pct /\
  (label (mockListings.mv (Fin p) (Fin b)) = Deal <-> pct <= -15) /\
  (label (mockListings.mv (Fin p) (Fin b)) = Overpriced <-> 15 <= pct) /\
  (label (mockListings.mv (Fin p) (Fin b)) = Fair <-> -15 < pct /\ pct < 15) /\
  (pct == -15 -> label (mockListings.mv (Fin p) (Fin b)) = Deal) /\
  (pct == 15 -> label (mockListings.mv (Fin p) (Fin b)) = Overpriced).
Proof.
  intros pct.
  assert (Hb0 : ~ b == 0) by (intros E; rewrite E in Hb; discriminate).
  rewrite mv_pct, mv_label, pct_Fin by assumption. fold pct. clearbody pct.
  destruct (JS.le (Fin pct) (Fin (-15))) eqn:Hle.
  - apply le_Fin in Hle.
    settle_thresholds.
  - apply le_Fin_false in Hle.
    destruct (JS.ge (Fin pct) (Fin 15)) eqn:Hge.
    + apply ge_Fin in Hge.
      settle_thresholds.
    + apply ge_Fin_false in Hge.
      settle_thresholds.
Qed.

Lemma mv_label_thresholds_witness :
  let pct := (3500 - 2500) / 2500 * 100 in
  pct_vs_avg (mockListings.mv (Fin 3500) (Fin 2500)) = Fin pct /\
  (label (mockListings.mv (Fin 3500) (Fin 2500)) = Deal <-> pct <= -15) /\
  (label (mockListings.mv (Fin 3500) (Fin 2500)) = Overpriced <-> 15 <= pct) /\
  (label (mockListings.mv (Fin 3500) (Fin 2500)) = Fair <-> -15 < pct /\ pct < 15) /\
  (pct == -15 -> label (mockListings.mv (Fin 3500) (Fin 2500)) = Deal) /\
  (pct == 15 -> label (mockListings.mv (Fin 3500) (Fin 2500)) = Overpriced).
Proof. apply (mv_label_thresholds 3500 2500). reflexivity. Defined.

(** ** Zero or missing benchmark *)

Lemma base_falsy (table : gmap string JS.number) (sub : string) :
  JS.truthyV (table !! sub) = false -> mockListings.base table sub = Fin 2500.
Proof.
  unfold mockListings.base, JS.orV, JS.or, JS.truthyV.
  destruct (table !! sub) as [a|]; [|reflexivity].
  intros ->. reflexivity.
Qed.

(** The divisor of line 33 is never zero and never [NaN]. *)
Lemma base_truthy (table : gmap string JS.number) (sub : string) :
  JS.truthy (mockListings.base table sub) = true.
Proof.
  unfold mockListings.base, JS.orV, JS.or.
  destruct (table !! sub) as [a|]; [|reflexivity].
  destruct (JS.truthy a) eqn:E; [assumption | reflexivity].
Qed.




(** ** Middleman flag *)

Lemma Label_eqb_eq (a b : Label) : Label_eqb a b = true <-> a = b.
Proof. destruct a, b; simpl; intuition congruence. Qed.

Lemma FlagsView_fallback_filter (mock : list Listing) :
  FlagsView.flagged None mock = List.filter isFlag mock.
Proof. reflexivity. Qed.

(** C3.  A listing whose market value carries the percentage [q] is
    flagged exactly when its label is Overpriced and [q > 40]; at
    [q = 40] it is not flagged.  The flagged view's fallback keeps the
    listings so flagged, and the row shows the listing's own label and
    percentage whether flagged or not. *)
Theorem isFlag_iff (l : Listing) (m : MarketValue) (q : Q)
    (Hm : market_value l = Some m) (Hq : pct_vs_avg m = Fin q) :
  (isFlag l = true <-> label m = Overpriced /\ 40 < q) /\
  (q == 40 -> isFlag l = false) /\
  row_flagged (ListingRow l) = isFlag l /\
  row_badge (ListingRow l) = Some (label m, Fin q) /\
  (forall mock : list Listing,
     In l (FlagsView.flagged None mock) <-> In l mock /\ isFlag l = true).
Proof.
  assert (Hflag : isFlag l = Label_eqb (label m) Overpriced && JS.gt (Fin q) (Fin 40)).
  { unfold isFlag. rewrite Hm, Hq. reflexivity. }
  split; [|split; [|split; [|split]]].
  - rewrite Hflag, andb_true_iff, Label_eqb_eq, gt_Fin. reflexivity.
  - intros Heq. rewrite Hflag. apply andb_false_iff. right.
    apply gt_Fin_false. rewrite Heq. apply Qle_refl.
  - reflexivity.
  - unfold ListingRow; simpl. rewrite Hm; simpl. rewrite Hq. reflexivity.
  - intros mock. rewrite FlagsView_fallback_filter, filter_In. reflexivity.
Qed.

(** Price 3500 against benchmark 2500: 40 percent over, Overpriced, not
    flagged. *)
Lemma isFlag_iff_witness :
  let l := listing_at 3500 2500 in
  let m := mockListings.mv (Fin 3500) (Fin 2500) in
  let q := (3500 - 2500) / 2500 * 100 in
  label m = Overpriced /\ q == 40 /\
  (isFlag l = true <-> label m = Overpriced /\ 40 < q) /\
  (q == 40 -> isFlag l = false) /\
  row_flagged (ListingRow l) = isFlag l /\
  row_badge (ListingRow l) = Some (label m, Fin q) /\
  (forall mock : list Listing,
     In l (FlagsView.flagged None mock) <-> In l mock /\ isFlag l = true).
Proof.
  intros l m q. split; [reflexivity|]. split; [reflexivity|].
  apply (isFlag_iff l m q); reflexivity.
Defined.

(** Price 3501 against benchmark 2500 is flagged. *)
Lemma isFlag_3501 : isFlag (listing_at 3501 2500) = true.
Proof. reflexivity. Qed.

Lemma isFlag_3500 : isFlag (listing_at 3500 2500) = false.
Proof. reflexivity. Qed.

(** For the listings of the mock generator the percentage alone decides:
    more than 40 percent over the benchmark is always Overpriced. *)
Lemma gt_40_overpriced (a : JS.number) :
  JS.gt a (Fin 40) = true ->
  JS.le a (Fin (-15)) = false /\ JS.ge a (Fin 15) = true.
Proof.
  destruct a as [q| | |]; try (intros; split; reflexivity); try discriminate.
  intros H. apply gt_Fin in H. split.
  - apply le_Fin_false. Lqa.lra.
  - apply ge_Fin. Lqa.lra.
Qed.

Lemma mock_listing_isFlag (table : gmap string JS.number) (rnd : JS.number)
    (i : nat) :
  let l := mockListings.listing table rnd i in
  isFlag l
  = JS.gt (mockListings.pct (price_monthly_k l) (mockListings.base table (suburb l)))
          (Fin 40).
Proof.
  intros l. unfold isFlag, l, mockListings.listing. simpl.
  rewrite mv_label, mv_pct.
  destruct (JS.gt _ (Fin 40)) eqn:E; [|apply andb_false_r].
  apply gt_40_overpriced in E as [-> ->]. reflexivity.
Qed.

(** ** Supply and demand *)

Lemma min_Fin (x y : Q) : JS.min (Fin x) (Fin y) = Fin (Qmin x y).
Proof.
  unfold JS.min, Qmin, GenericMinMax.gmin; simpl.
  destruct (x ?= y); reflexivity.
Qed.

Lemma or_truthy (a d : JS.number) : JS.truthy a = true -> JS.or a d = a.
Proof. unfold JS.or. intros ->. reflexivity. Qed.

Lemma or_falsy (a d : JS.number) : JS.truthy a = false -> JS.or a d = d.
Proof. unfold JS.or. intros ->. reflexivity. Qed.

Lemma truthy_Fin (q : Q) : JS.truthy (Fin q) = true <-> ~ q == 0.
Proof.
  simpl. rewrite negb_true_iff, <- not_true_iff_false, Qeq_bool_iff. reflexivity.
Qed.

(** Both views take the same maximum and the same percentage. *)
Lemma AnalyticsView_ratio_unfold (M : JS.number) (d : SupplyStat) :
  AnalyticsView.ratio M d =
    JS.div (JS.orV (demand_score d) (Fin 50))
           (JS.or (SupplyDemand.supplyPct M d) (Fin 50)).
Proof. reflexivity. Qed.

Lemma sd_label_of_ratio (r : Q) :
  sd_thresholds r
    (if JS.gt (Fin r) (Fin (13 # 10)) then HighDemand
     else if JS.lt (Fin r) (Fin (7 # 10)) then Oversupply else Balanced).
Proof.
  unfold sd_thresholds.
  destruct (JS.gt (Fin r) (Fin (13 # 10))) eqn:Hgt.
  - apply gt_Fin in Hgt. settle_thresholds.
  - apply gt_Fin_false in Hgt.
    destruct (JS.lt (Fin r) (Fin (7 # 10))) eqn:Hlt.
    + apply lt_Fin in Hlt. settle_thresholds.
    + apply lt_Fin_false in Hlt. settle_thresholds.
Qed.




(** The two views disagree on a suburb without supply: the panel divides
    by 1, the analytics cards by 50. *)
Lemma views_disagree_without_supply :
  let data := [sd_no_supply; sd_peak] in
  SupplyDemand.label (SupplyDemand.maxS data) sd_no_supply = HighDemand /\
  AnalyticsView.label (AnalyticsView.maxSup data) sd_no_supply = Balanced.
Proof. split; vm_compute; reflexivity. Qed.

(** The specification's three sample suburbs, in both views: demand 90
    at full supply, demand 40 at full supply, demand 90 at a tenth of the
    maximum supply. *)
Lemma supply_demand_samples :
  let stat (dem sup : Q) :=
    {| sd_suburb := "Boroko"; supply := Some (Fin sup);
       demand_score := Some (Fin dem); sd_avg_price := None |} in
  let data := [stat 90 80; stat 40 80; stat 90 8] in
  List.map snd (AnalyticsView.cards data) = [Balanced; Oversupply; HighDemand] /\
  option_map (List.map snd) (SupplyDemand.render data)
    = Some [Balanced; Oversupply; HighDemand].
Proof. split; vm_compute; reflexivity. Qed.

(** ** Bubble radius *)

Section Radius.
Local Open Scope R_scope.

Lemma N2R_pos (n : N) : (0 < n)%N -> 0 < N2R n.
Proof. intros H. apply IZR_lt. lia. Qed.

Lemma N2R_le (m n : N) : (m <= n)%N -> N2R m <= N2R n.
Proof. intros H. apply IZR_le. lia. Qed.

Lemma rOf_monotone (M l1 l2 : N) :
  (0 < M)%N -> (l1 <= l2)%N -> HeatmapViz.rOf M l1 <= HeatmapViz.rOf M l2.
Proof.
  intros HM Hl. unfold HeatmapViz.rOf.
  apply Rplus_le_compat_l, Rmult_le_compat_r; [Lra.lra|].
  apply sqrt_le_1_alt, Rmult_le_compat_r.
  - apply Rlt_le, Rinv_0_lt_compat, N2R_pos, HM.
  - apply N2R_le, Hl.
Qed.

Lemma rOf_max (M : N) : (0 < M)%N -> HeatmapViz.rOf M M = 50.
Proof.
  intros HM. unfold HeatmapViz.rOf.
  replace (N2R M / N2R M) with 1.
  - rewrite sqrt_1. Lra.lra.
  - field. apply Rgt_not_eq, N2R_pos, HM.
Qed.

Lemma rOf_zero (M : N) : HeatmapViz.rOf M 0 = 22.
Proof.
  unfold HeatmapViz.rOf, N2R. simpl Z.of_N.
  replace (0 / IZR (Z.of_N M)) with 0 by (unfold Rdiv; ring).
  rewrite sqrt_0. Lra.lra.
Qed.

Lemma listings_or_nonzero (n k : N) :
  (0 < n)%N -> HeatmapViz.listings_or (Some n) k = n.
Proof.
  intros H. unfold HeatmapViz.listings_or.
  destruct (N.eqb_spec n 0); [lia | reflexivity].
Qed.

(** C7, as the code has it.  For a fixed, non-empty data set (so a
    fixed [maxL > 0]), a suburb with a non-zero listing count [l] is
    drawn with radius [22 + sqrt(l / maxL) * 28]; over non-zero counts
    the radius is monotonically non-decreasing, and it is [50] at
    [l = maxL].  [rOf] is [22] at a count of 0, but a suburb whose count
    is zero or absent is drawn with the radius of 20 listings. *)
Theorem bubble_radius_nonzero_counts
    (suburbs : list HeatSuburb) (s1 s2 : HeatSuburb) (l1 l2 : N)
    (Hs1 : listings s1 = Some l1) (Hs2 : listings s2 = Some l2)
    (Hl1 : (0 < l1)%N) (Hl : (l1 <= l2)%N)
    (HM : (0 < HeatmapViz.maxL suburbs)%N) :
  let M := HeatmapViz.maxL suburbs in
  HeatmapViz.r suburbs s1 = 22 + sqrt (N2R l1 / N2R M) * 28 /\
  HeatmapViz.r suburbs s2 = 22 + sqrt (N2R l2 / N2R M) * 28 /\
  HeatmapViz.r suburbs s1 <= HeatmapViz.r suburbs s2 /\
  (l2 = M -> HeatmapViz.r suburbs s2 = 50) /\
  HeatmapViz.rOf M 0 = 22 /\
  (forall s0 : HeatSuburb,
     listings s0 = Some 0%N \/ listings s0 = None ->
     HeatmapViz.r suburbs s0 = 22 + sqrt (20 / N2R M) * 28).
Proof.
  intros M. unfold HeatmapViz.r. rewrite Hs1, Hs2.
  rewrite !listings_or_nonzero by lia. fold M.
  split; [reflexivity|]. split; [reflexivity|]. split; [|split; [|split]].
  - apply rOf_monotone; assumption.
  - intros ->. apply rOf_max. assumption.
  - apply rOf_zero.
  - intros s0 [-> | ->]; reflexivity.
Qed.

Lemma maxL_sample : HeatmapViz.maxL hm_sample = 80%N.
Proof. reflexivity. Qed.

Lemma bubble_radius_nonzero_counts_witness :
  let suburbs := hm_sample in
  let s1 := hm_with "Badili" 5 in
  let s2 := hm_with "Waigani" 80 in
  let M := HeatmapViz.maxL suburbs in
  HeatmapViz.r suburbs s1 = 22 + sqrt (N2R 5 / N2R M) * 28 /\
  HeatmapViz.r suburbs s2 = 22 + sqrt (N2R 80 / N2R M) * 28 /\
  HeatmapViz.r suburbs s1 <= HeatmapViz.r suburbs s2 /\
  (80%N = M -> HeatmapViz.r suburbs s2 = 50) /\
  HeatmapViz.rOf M 0 = 22 /\
  (forall s0 : HeatSuburb,
     listings s0 = Some 0%N \/ listings s0 = None ->
     HeatmapViz.r suburbs s0 = 22 + sqrt (20 / N2R M) * 28).
Proof.
  apply (bubble_radius_nonzero_counts hm_sample
           (hm_with "Badili" 5) (hm_with "Waigani" 80) 5 80);
    try reflexivity; rewrite ?maxL_sample; lia.
Defined.

Lemma sqrt_quarter : sqrt (N2R 20 / N2R 80) = 1 / 2.
Proof.
  apply sqrt_lem_1.
  - unfold N2R; simpl. Lra.lra.
  - Lra.lra.
  - unfold N2R; simpl. Lra.lra.
Qed.

Lemma sqrt_sixteenth : sqrt (N2R 5 / N2R 80) = 1 / 4.
Proof.
  apply sqrt_lem_1.
  - unfold N2R; simpl. Lra.lra.
  - Lra.lra.
  - unfold N2R; simpl. Lra.lra.
Qed.

(** C7, as stated, fails: in one data set whose largest count is 80,
    the suburb with 0 listings is drawn with radius 36, not 22, and
    larger than the suburb with 5 listings (radius 29). *)
Lemma bubble_radius_zero_count_not_r0 :
  let zero := hm_with "Koki" 0 in
  let five := hm_with "Badili" 5 in
  HeatmapViz.maxL hm_sample = 80%N /\
  HeatmapViz.r hm_sample zero = 36 /\
  HeatmapViz.r hm_sample five = 29 /\
  HeatmapViz.r hm_sample zero <> 22 /\
  ~ (HeatmapViz.r hm_sample zero <= HeatmapViz.r hm_sample five) /\
  option_map HeatmapViz.radius (HeatmapViz.bubble hm_sample zero)
    = Some (HeatmapViz.r hm_sample zero).
Proof.
  intros zero five.
  assert (Hz : HeatmapViz.r hm_sample zero = 36).
  { unfold HeatmapViz.r. rewrite maxL_sample. simpl HeatmapViz.listings_or.
    unfold HeatmapViz.rOf. rewrite sqrt_quarter. Lra.lra. }
  assert (Hf : HeatmapViz.r hm_sample five = 29).
  { unfold HeatmapViz.r. rewrite maxL_sample. simpl HeatmapViz.listings_or.
    unfold HeatmapViz.rOf. rewrite sqrt_sixteenth. Lra.lra. }
  split; [reflexivity|]. split; [assumption|]. split; [assumption|].
  split; [rewrite Hz; Lra.lra|]. split; [rewrite Hz, Hf; Lra.lra|]. reflexivity.
Qed.

End Radius.

(** ** Trend chart *)

Lemma toX_single_point (d : TrendPoint) : LineChart.toX [d] 0 = NaN.
Proof. reflexivity. Qed.

Lemma render_empty : LineChart.render [] = NoTrendData.
Proof. reflexivity. Qed.

(** *** Replacing a point by one that looks the same to the chart *)

Lemma flat_map_insert_same {A B : Type} (f : A -> list B) (l : list A)
    (i : nat) (x y : A) :
  l !! i = Some x -> f y = f x ->
  List.flat_map f (<[i:=y]> l) = List.flat_map f l.
Proof.
  revert i. induction l as [|a l IH]; intros [|i] Hi Hf; simpl in *;
    try discriminate.
  - injection Hi as ->. rewrite Hf. reflexivity.
  - f_equal. apply IH; assumption.
Qed.

Lemma imap_insert_same {A B : Type} (f g : nat -> A -> B) (l : list A)
    (i : nat) (x y : A) :
  l !! i = Some x -> f i y = g i x -> (forall j a, f j a = g j a) ->
  imap f (<[i:=y]> l) = imap g l.
Proof.
  intros Hi Hxy Hfg. apply list_eq. intros j.
  rewrite !list_lookup_imap.
  destruct (decide (i = j)) as [<-|Hne].
  - rewrite list_lookup_insert_eq by (eapply lookup_lt_Some; eassumption).
    rewrite Hi. simpl. f_equal. assumption.
  - rewrite list_lookup_insert_ne by assumption.
    destruct (l !! j); simpl; [f_equal; apply Hfg | reflexivity].
Qed.

Lemma seen_truthy (v v' : JS.value) :
  seen v' = seen v ->
  JS.truthyV v' = JS.truthyV v /\ (JS.truthyV v = true -> v' = v).
Proof.
  unfold seen. destruct (JS.truthyV v') eqn:E', (JS.truthyV v) eqn:E; intros H.
  - split; [reflexivity | intros _; assumption].
  - subst v'. discriminate.
  - subst v. discriminate.
  - split; [reflexivity | discriminate].
Qed.

Lemma render_nonempty (trends : list TrendPoint) :
  trends <> [] ->
  LineChart.render trends =
    Chart (List.map (LineChart.gridline trends) [0; 1; 2; 3]%nat)
          (List.map (LineChart.series trends) LineChart.keys)
          (imap (fun i d => {| t_x := LineChart.toX trends i; t_text := week d |})
                trends).
Proof. destruct trends; [congruence | reflexivity]. Qed.

Section SamePoint.

Variables (trends : list TrendPoint) (i : nat) (d d' : TrendPoint).
Hypothesis Hi : trends !! i = Some d.
Hypothesis Hweek : week d' = week d.
Hypothesis Hseen : forall k, seen (get d' k) = seen (get d k).

Local Abbreviation trends' := (<[i:=d']> trends).

Lemma row_same :
  List.filter JS.truthyV (List.map (fun k => get d' k) LineChart.keys)
  = List.filter JS.truthyV (List.map (fun k => get d k) LineChart.keys).
Proof using Hseen.
  unfold LineChart.keys; cbn [List.map List.filter].
  destruct (seen_truthy _ _ (Hseen Waigani)) as [-> HW].
  destruct (seen_truthy _ _ (Hseen Boroko)) as [-> HB].
  destruct (seen_truthy _ _ (Hseen Gerehu)) as [-> HG].
  destruct (JS.truthyV (get d Waigani)); [rewrite HW by reflexivity|];
  destruct (JS.truthyV (get d Boroko)); [rewrite HB by reflexivity| |rewrite HB by reflexivity|];
  destruct (JS.truthyV (get d Gerehu)); try rewrite HG by reflexivity; reflexivity.
Qed.

Lemma allV_same : LineChart.allV trends' = LineChart.allV trends.
Proof using Hi Hseen.
  unfold LineChart.allV.
  apply flat_map_insert_same with (x := d); [assumption | apply row_same].
Qed.

Lemma minV_same : LineChart.minV trends' = LineChart.minV trends.
Proof using Hi Hseen. unfold LineChart.minV. rewrite allV_same. reflexivity. Qed.

Lemma maxV_same : LineChart.maxV trends' = LineChart.maxV trends.
Proof using Hi Hseen. unfold LineChart.maxV. rewrite allV_same. reflexivity. Qed.

Lemma range_same : LineChart.range trends' = LineChart.range trends.
Proof using Hi Hseen.
  unfold LineChart.range. rewrite minV_same, maxV_same. reflexivity.
Qed.

Lemma toX_same (j : nat) : LineChart.toX trends' j = LineChart.toX trends j.
Proof. unfold LineChart.toX. rewrite length_insert. reflexivity. Qed.

Lemma toY_same (v : JS.number) : LineChart.toY trends' v = LineChart.toY trends v.
Proof using Hi Hseen.
  unfold LineChart.toY. rewrite minV_same, range_same. reflexivity.
Qed.

Lemma pts_same (k : Key) : LineChart.pts trends' k = LineChart.pts trends k.
Proof using Hi Hseen.
  unfold LineChart.pts. f_equal.
  apply imap_insert_same with (x := d); [assumption | |].
  - rewrite toX_same, toY_same.
    destruct (seen_truthy _ _ (Hseen k)) as [-> Hk].
    destruct (JS.truthyV (get d k)); [rewrite Hk by reflexivity|]; reflexivity.
  - intros j a. rewrite toX_same, toY_same. reflexivity.
Qed.

Lemma series_same (k : Key) : LineChart.series trends' k = LineChart.series trends k.
Proof using Hi Hseen.
  unfold LineChart.series. rewrite pts_same.
  destruct (LineChart.pts trends k); [reflexivity|].
  do 2 f_equal.
  apply imap_insert_same with (x := d); [assumption | |].
  - rewrite toX_same, toY_same.
    destruct (seen_truthy _ _ (Hseen k)) as [-> Hk].
    destruct (JS.truthyV (get d k)); [rewrite Hk by reflexivity|]; reflexivity.
  - intros j a. rewrite toX_same, toY_same. reflexivity.
Qed.

Lemma gridline_same (j : nat) :
  LineChart.gridline trends' j = LineChart.gridline trends j.
Proof using Hi Hseen.
  unfold LineChart.gridline. rewrite minV_same, range_same, toY_same. reflexivity.
Qed.

Lemma render_same : LineChart.render trends' = LineChart.render trends.
Proof using Hi Hweek Hseen.
  assert (Hne : trends <> []) by (intros ->; discriminate).
  assert (Hne' : trends' <> []).
  { intros E. apply (f_equal length) in E.
    rewrite length_insert in E. destruct trends; [congruence | discriminate]. }
  rewrite !render_nonempty by assumption. f_equal.
  - simpl. rewrite !gridline_same. reflexivity.
  - simpl. rewrite !series_same. reflexivity.
  - apply imap_insert_same with (x := d).
    + assumption.
    + rewrite toX_same, Hweek. reflexivity.
    + intros j b. rewrite toX_same. reflexivity.
Qed.

End SamePoint.

(** *** Which points a series draws *)

Lemma allV_truthy (trends : list TrendPoint) :
  Forall (fun v => JS.truthyV v = true) (LineChart.allV trends).
Proof.
  apply List.Forall_forall. intros v Hv. unfold LineChart.allV in Hv.
  apply List.in_flat_map in Hv as (d & _ & Hv).
  apply List.filter_In in Hv. apply Hv.
Qed.

Lemma omap_imap_fmap {A B C : Type} (g : B -> C) (G : nat -> A -> option B)
    (l : list A) :
  omap (fun p => p) (imap (fun i d => g <$> G i d) l)
  = g <$> omap (fun p => p) (imap G l).
Proof.
  revert G. induction l as [|a l IH]; intros G; [reflexivity|].
  rewrite !imap_cons. simpl. destruct (G 0%nat a); simpl.
  - f_equal. apply (IH (G ∘ S)).
  - apply (IH (G ∘ S)).
Qed.

Lemma pts_present (trends : list TrendPoint) (k : Key) :
  LineChart.pts trends k = LineChart.vertex trends <$> LineChart.present trends k.
Proof.
  unfold LineChart.pts, LineChart.present.
  rewrite <- omap_imap_fmap. f_equal. apply imap_ext. intros i d _.
  destruct (JS.truthyV (get d k)); reflexivity.
Qed.

Lemma series_inv (trends : list TrendPoint) (k : Key) (s : Series) :
  LineChart.series trends k = Some s ->
  s_key s = k /\
  polyline s = LineChart.pts trends k /\
  circles s =
    imap (fun i d =>
            if JS.truthyV (get d k)
            then Some {| c_key := i; c_cx := LineChart.toX trends i;
                         c_cy := LineChart.toY trends (JS.toNumber (get d k)) |}
            else None)
         trends.
Proof.
  unfold LineChart.series. destruct (LineChart.pts trends k) eqn:E; [discriminate|].
  intros [= <-]. auto.
Qed.

Lemma present_elem (trends : list TrendPoint) (k : Key) (j : nat) (v : JS.number) :
  (j, v) ∈ LineChart.present trends k <->
  exists d, trends !! j = Some d /\ JS.truthyV (get d k) = true /\
            v = JS.toNumber (get d k).
Proof.
  unfold LineChart.present. rewrite list_elem_of_omap. split.
  - intros (o & Ho & ->). apply elem_of_lookup_imap in Ho as (i & d & Ho & Hd).
    destruct (JS.truthyV (get d k)) eqn:E; [|discriminate].
    injection Ho as -> ->. eauto.
  - intros (d & Hd & Ht & ->). exists (Some (j, JS.toNumber (get d k))).
    split; [|reflexivity]. apply elem_of_lookup_imap. exists j, d.
    rewrite Ht. auto.
Qed.

(** A point whose value is falsy gets no circle and no vertex. *)
Lemma falsy_point_not_drawn (trends : list TrendPoint) (k : Key) (s : Series)
    (i : nat) (d : TrendPoint) :
  LineChart.series trends k = Some s ->
  trends !! i = Some d -> JS.truthyV (get d k) = false ->
  circles s !! i = Some None /\ forall v, (i, v) ∉ LineChart.present trends k.
Proof.
  intros Hs Hi Hf. apply series_inv in Hs as (_ & _ & ->). split.
  - rewrite list_lookup_imap, Hi. simpl. rewrite Hf. reflexivity.
  - intros v Hv. apply present_elem in Hv as (d' & Hd' & Ht & _).
    congruence.
Qed.

Lemma omap_imap_none {A B : Type} (G : nat -> A -> option B) (l : list A) :
  (forall j a, l !! j = Some a -> G j a = None) ->
  omap (fun p => p) (imap G l) = [].
Proof.
  revert G. induction l as [|a l IH]; intros G HG; [reflexivity|].
  rewrite imap_cons. simpl. rewrite (HG 0%nat a) by reflexivity.
  apply IH. intros j b Hj. apply (HG (S j)). assumption.
Qed.

(** Two drawn points with nothing drawn in between are consecutive in the
    list of drawn points. *)
Lemma omap_imap_gap {A B : Type} (G : nat -> A -> option B)
    (l1 mid l2 : list A) (x y : A) (gx gy : B) :
  G (length l1) x = Some gx ->
  (forall j a, mid !! j = Some a -> G (length l1 + S j)%nat a = None) ->
  G (length l1 + S (length mid))%nat y = Some gy ->
  exists before after,
    omap (fun p => p) (imap G (l1 ++ x :: mid ++ y :: l2))
    = before ++ gx :: gy :: after.
Proof.
  intros Hx Hmid Hy.
  rewrite imap_app, omap_app, imap_cons. simpl.
  rewrite Nat.add_0_r, Hx.
  rewrite imap_app, omap_app, imap_cons. simpl.
  rewrite (omap_imap_none _ mid).
  - rewrite Nat.add_0_r, Hy. simpl. eauto.
  - intros j a Hj. simpl. apply Hmid. assumption.
Qed.

Lemma segments_consecutive {A : Type} (before after : list A) (x y : A) :
  (x, y) ∈ segments (before ++ x :: y :: after).
Proof.
  induction before as [|a [|b before] IH]; unfold segments in *; simpl in *.
  - apply list_elem_of_here.
  - apply list_elem_of_further, list_elem_of_here.
  - apply list_elem_of_further. assumption.
Qed.

(** C9, as the code has it.  A point whose value in a series is missing
    (or otherwise falsy) gets no circle and no polyline vertex.  The line
    is not broken there: the series is one polyline through its drawn
    points in index order, so two drawn points with only missing values
    between them are joined by a single segment. *)
Theorem series_skips_missing_and_joins_neighbours
    (l1 mid l2 : list TrendPoint) (dj dj' : TrendPoint) (k : Key)
    (Hj : JS.truthyV (get dj k) = true)
    (Hj' : JS.truthyV (get dj' k) = true)
    (Hmid : Forall (fun d => JS.truthyV (get d k) = false) mid) :
  let trends := l1 ++ dj :: mid ++ dj' :: l2 in
  let j := length l1 in
  let j' := (length l1 + S (length mid))%nat in
  exists s,
    LineChart.series trends k = Some s /\
    polyline s = LineChart.vertex trends <$> LineChart.present trends k /\
    (forall i d, trends !! i = Some d -> JS.truthyV (get d k) = false ->
       circles s !! i = Some None /\
       forall v, (i, v) ∉ LineChart.present trends k) /\
    (LineChart.vertex trends (j, JS.toNumber (get dj k)),
     LineChart.vertex trends (j', JS.toNumber (get dj' k)))
      ∈ segments (polyline s).
Proof.
  intros trends j j'.
  destruct (omap_imap_gap
              (fun i d => if JS.truthyV (get d k)
                          then Some (i, JS.toNumber (get d k)) else None)
              l1 mid l2 dj dj' (j, JS.toNumber (get dj k))
              (j', JS.toNumber (get dj' k)))
    as (before & after & Hp).
  { rewrite Hj. reflexivity. }
  { intros i a Hi. rewrite Forall_lookup in Hmid.
    rewrite (Hmid i a Hi). reflexivity. }
  { rewrite Hj'. reflexivity. }
  change (LineChart.present trends k
          = before ++ (j, JS.toNumber (get dj k))
                   :: (j', JS.toNumber (get dj' k)) :: after) in Hp.
  assert (Hs : exists s, LineChart.series trends k = Some s).
  { unfold LineChart.series. destruct (LineChart.pts trends k) eqn:E; [|eauto].
    rewrite pts_present, Hp in E. destruct before; discriminate. }
  destruct Hs as [s Hs]. exists s.
  pose proof (series_inv _ _ _ Hs) as (_ & Hpoly & _).
  rewrite pts_present in Hpoly.
  split; [assumption|]. split; [assumption|]. split.
  - intros i d Hi Hf. eapply falsy_point_not_drawn; eassumption.
  - rewrite Hpoly, Hp, fmap_app, !fmap_cons. apply segments_consecutive.
Qed.

Lemma series_skips_missing_and_joins_neighbours_witness :
  let dj := tp "Jan 19" (Some (Fin 4200)) (Some (Fin 3000)) (Some (Fin 1750)) in
  let dm := tp "Jan 26" None (Some (Fin 3025)) (Some (Fin 1770)) in
  let dj' := tp "Feb 2" (Some (Fin 4280)) (Some (Fin 3050)) (Some (Fin 1790)) in
  let trends := [] ++ dj :: [dm] ++ dj' :: [] in
  exists s,
    LineChart.series trends Waigani = Some s /\
    polyline s = LineChart.vertex trends <$> LineChart.present trends Waigani /\
    (forall i d, trends !! i = Some d -> JS.truthyV (get d Waigani) = false ->
       circles s !! i = Some None /\
       forall v, (i, v) ∉ LineChart.present trends Waigani) /\
    (LineChart.vertex trends (0%nat, JS.toNumber (get dj Waigani)),
     LineChart.vertex trends (2%nat, JS.toNumber (get dj' Waigani)))
      ∈ segments (polyline s).
Proof.
  intros dj dm dj' trends.
  apply (series_skips_missing_and_joins_neighbours [] [dm] [] dj dj' Waigani).
  - reflexivity.
  - reflexivity.
  - constructor; [reflexivity | constructor].
Defined.

(** C9, as stated, fails: with the Waigani value missing at index 1 of
    three weeks, the series is still drawn, as one polyline of two
    vertices, and its only segment joins the points of indices 0 and 2
    across the missing one. *)
Lemma missing_value_line_not_broken :
  (gap_weeks !! 1%nat) ≫= (fun d => get d Waigani) = None /\
  exists s,
    LineChart.series gap_weeks Waigani = Some s /\
    circles s !! 1%nat = Some None /\
    polyline s = [LineChart.vertex gap_weeks (0%nat, Fin 4200);
                  LineChart.vertex gap_weeks (2%nat, Fin 4280)] /\
    segments (polyline s) = [(LineChart.vertex gap_weeks (0%nat, Fin 4200),
                              LineChart.vertex gap_weeks (2%nat, Fin 4280))].
Proof.
  split; [reflexivity|].
  eexists. split; [reflexivity|]. repeat split; vm_compute; reflexivity.
Qed.

(** C10.  A value equal to 0 is treated exactly like a missing one: only
    truthy values enter the minimum and maximum, removing the zero
    property changes neither those nor anything the chart draws, and the
    point gets no circle and no polyline vertex. *)
Theorem zero_value_treated_as_missing
    (trends : list TrendPoint) (i : nat) (d : TrendPoint) (k : Key) (z : Q)
    (Hi : trends !! i = Some d) (Hk : get d k = Some (Fin z)) (Hz : z == 0) :
  let trends' := <[i := unset k d]> trends in
  get (unset k d) k = None /\
  Forall (fun v => JS.truthyV v = true) (LineChart.allV trends) /\
  ~ In (Some (Fin z)) (LineChart.allV trends) /\
  LineChart.allV trends' = LineChart.allV trends /\
  LineChart.minV trends' = LineChart.minV trends /\
  LineChart.maxV trends' = LineChart.maxV trends /\
  LineChart.render trends' = LineChart.render trends /\
  (forall s, LineChart.series trends k = Some s ->
     polyline s = LineChart.vertex trends <$> LineChart.present trends k /\
     circles s !! i = Some None /\
     forall v, (i, v) ∉ LineChart.present trends k).
Proof.
  intros trends'.
  assert (Hf : JS.truthyV (get d k) = false).
  { rewrite Hk. simpl. apply negb_false_iff, Qeq_bool_iff, Hz. }
  assert (Hseen : forall k', seen (get (unset k d) k') = seen (get d k')).
  { intros k'. destruct k, k'; try reflexivity;
      unfold seen; rewrite Hf; reflexivity. }
  assert (Hweek : week (unset k d) = week d) by (destruct k; reflexivity).
  split; [destruct k; reflexivity|].
  split; [apply allV_truthy|].
  split.
  { intros Hin. pose proof (allV_truthy trends) as Hall.
    rewrite List.Forall_forall in Hall. apply Hall in Hin.
    rewrite <- Hk in Hin. congruence. }
  split; [apply allV_same with (d := d); assumption|].
  split; [apply minV_same with (d := d); assumption|].
  split; [apply maxV_same with (d := d); assumption|].
  split; [apply render_same with (d := d); assumption|].
  intros s Hs. split.
  - apply series_inv in Hs as (_ & -> & _). apply pts_present.
  - eapply falsy_point_not_drawn; eassumption.
Qed.

Lemma zero_value_treated_as_missing_witness :
  let d := tp "Jan 26" (Some (Fin 0)) (Some (Fin 3025)) (Some (Fin 1770)) in
  let trends :=
    [tp "Jan 19" (Some (Fin 4200)) (Some (Fin 3000)) (Some (Fin 1750)); d;
     tp "Feb 2" (Some (Fin 4280)) (Some (Fin 3050)) (Some (Fin 1790))] in
  let trends' := <[1%nat := unset Waigani d]> trends in
  get (unset Waigani d) Waigani = None /\
  Forall (fun v => JS.truthyV v = true) (LineChart.allV trends) /\
  ~ In (Some (Fin 0)) (LineChart.allV trends) /\
  LineChart.allV trends' = LineChart.allV trends /\
  LineChart.minV trends' = LineChart.minV trends /\
  LineChart.maxV trends' = LineChart.maxV trends /\
  LineChart.render trends' = LineChart.render trends /\
  (forall s, LineChart.series trends Waigani = Some s ->
     polyline s = LineChart.vertex trends <$> LineChart.present trends Waigani /\
     circles s !! 1%nat = Some None /\
     forall v, (1%nat, v) ∉ LineChart.present trends Waigani).
Proof.
  intros d trends.
  apply (zero_value_treated_as_missing trends 1 d Waigani 0); reflexivity.
Defined.

(** Removing the zero Waigani value of the middle week gives the chart of
    [gap_weeks]: the minimum stays 1750, not 0. *)
Lemma zero_value_example :
  let zero_weeks :=
    <[1%nat := tp "Jan 26" (Some (Fin 0)) (Some (Fin 3025)) (Some (Fin 1770))]>
      gap_weeks in
  LineChart.minV zero_weeks = Fin 1750 /\
  LineChart.maxV zero_weeks = Fin 4280 /\
  LineChart.render zero_weeks = LineChart.render gap_weeks.
Proof. repeat split; vm_compute; reflexivity. Qed.

(** C8 at the code.  A single point is not reported as missing data: the
    chart is drawn, and every x coordinate is [0/0 * iW], that is [NaN]:
    the week label, the polyline vertex and the circle of every series. *)
Theorem single_point_is_drawn_at_NaN (d : TrendPoint) :
  LineChart.render [d] <> NoTrendData /\
  LineChart.toX [d] 0 = NaN /\
  (exists grid series,
     LineChart.render [d]
     = Chart grid series [{| t_x := NaN; t_text := week d |}]) /\
  (forall k s, LineChart.series [d] k = Some s ->
     exists y, polyline s = [(NaN, y)] /\
               circles s = [Some {| c_key := 0; c_cx := NaN; c_cy := y |}]).
Proof.
  split; [discriminate|]. split; [reflexivity|]. split.
  - eexists _, _. reflexivity.
  - intros k s Hs. unfold LineChart.series, LineChart.pts in Hs.
    cbn [imap omap list_omap] in Hs.
    destruct (JS.truthyV (get d k)); [|discriminate].
    injection Hs as <-. eexists. split; reflexivity.
Qed.

(** The chart of [one_week]: every series is a one-vertex polyline at
    x = [NaN]. *)
Lemma one_week_chart :
  LineChart.render one_week <> NoTrendData /\
  List.map (fun k => option_map (fun s => List.map fst (polyline s))
                                (LineChart.series one_week k))
           LineChart.keys
  = [Some [NaN]; Some [NaN]; Some [NaN]].
Proof. split; [discriminate | vm_compute; reflexivity]. Qed.

(** With two or more points the x coordinates are finite. *)
Lemma toX_finite (trends : list TrendPoint) (i : nat) :
  (2 <= length trends)%nat -> JS.finite (LineChart.toX trends i).
Proof.
  intros Hn. unfold LineChart.toX, LineChart.of_nat, JS.sub. simpl JS.add at 2.
  rewrite div_Fin.
  - eexists. reflexivity.
  - intros E. unfold Qeq in E. simpl in E. lia.
Qed.

(** ** Scrape job panel *)

Section Polling.

Import ScrapePanel.

Lemma clear_timers (w : Panel) :
  one_timer w -> timers (clearInterval_pollRef w) = [].
Proof.
  intros [H | (id & jid & Ht & Hp & _)]; unfold clearInterval_pollRef; simpl.
  - rewrite H. destruct (pollRef w); reflexivity.
  - rewrite Hp, Ht. simpl. rewrite Nat.eqb_refl. reflexivity.
Qed.

Lemma one_timer_ext (w w' : Panel) :
  timers w' = timers w -> pollRef w' = pollRef w -> cleanup w' = cleanup w ->
  mounted w' = mounted w -> one_timer w -> one_timer w'.
Proof.
  unfold one_timer. intros -> -> -> ->. auto.
Qed.

Lemma setJob_one_timer (j : option Job) (w : Panel) :
  one_timer w -> one_timer (setJob j w).
Proof.
  apply one_timer_ext; unfold setJob; destruct (mounted w) eqn:E; auto.
Qed.

Lemma setPolling_one_timer (b : bool) (w : Panel) :
  one_timer w -> one_timer (setPolling b w).
Proof.
  apply one_timer_ext; unfold setPolling; destruct (mounted w) eqn:E; auto.
Qed.

Lemma add_requests_one_timer (a b : nat) (l : list string) (w : Panel) :
  one_timer w -> one_timer (add_requests a b l w).
Proof. apply one_timer_ext; reflexivity. Qed.

Lemma run_effect_one_timer (d : bool * option string) (w : Panel) :
  timers w = [] -> mounted w = true -> one_timer (run_effect d w).
Proof.
  intros Ht Hm. unfold run_effect.
  destruct (if polling w then id_truthy (job_id_of (job w)) else None) as [jid|].
  - right. exists (next_timer w), jid. simpl. rewrite Ht. auto.
  - left. assumption.
Qed.

Lemma commit_one_timer (w : Panel) : one_timer w -> one_timer (commit w).
Proof.
  intros Hw. unfold commit. destruct (mounted w) eqn:Hm; [|assumption].
  destruct (decide _); [assumption|].
  apply run_effect_one_timer.
  - destruct (cleanup w) eqn:Hc; [apply clear_timers, Hw|].
    destruct Hw as [H | (id & jid & _ & _ & Hc' & _)]; [assumption | congruence].
  - destruct (cleanup w); assumption.
Qed.

Lemma unmount_torn_down (w : Panel) : one_timer w -> torn_down (unmount w).
Proof.
  intros Hw. unfold unmount, torn_down. simpl. split; [|reflexivity].
  destruct (cleanup w) eqn:Hc; [apply clear_timers, Hw|].
  destruct Hw as [H | (id & jid & _ & _ & Hc' & _)]; [assumption | congruence].
Qed.

Lemma torn_down_one_timer (w : Panel) : torn_down w -> one_timer w.
Proof. intros [H _]. left. assumption. Qed.

Lemma step_one_timer (e : Event) (w w' : Panel) :
  one_timer w -> step e w = Some w' -> one_timer w'.
Proof.
  intros Hw. destruct e as [src|n| |data|id|d| |]; simpl.
  - destruct (_ && _); intros [= <-]. revert Hw. apply one_timer_ext; reflexivity.
  - destruct (_ && _); intros [= <-]. revert Hw. apply one_timer_ext; reflexivity.
  - destruct (_ && _); intros [= <-]. apply add_requests_one_timer, Hw.
  - destruct (pending_trigger w); [discriminate|].
    destruct data; intros [= <-].
    + apply commit_one_timer, setPolling_one_timer, setJob_one_timer,
        add_requests_one_timer, Hw.
    + apply add_requests_one_timer, Hw.
  - destruct (List.find _ _) as [[? jid]|]; intros [= <-].
    apply add_requests_one_timer, Hw.
  - destruct (pending_status w); [discriminate|].
    destruct d as [j|]; [|intros [= <-]; apply add_requests_one_timer, Hw].
    destruct (terminal (status j)); intros [= <-]; apply commit_one_timer.
    + left. apply clear_timers, setPolling_one_timer, setJob_one_timer,
        add_requests_one_timer, Hw.
    + apply setJob_one_timer, add_requests_one_timer, Hw.
  - destruct (job w); [|discriminate]. destruct (_ && _); intros [= <-].
    apply torn_down_one_timer, unmount_torn_down, setJob_one_timer, Hw.
  - destruct (mounted w); intros [= <-].
    apply torn_down_one_timer, unmount_torn_down, Hw.
Qed.

Lemma run_one_timer (evs : list Event) (w w' : Panel) :
  one_timer w -> run evs w = Some w' -> one_timer w'.
Proof.
  revert w. induction evs as [|e evs IH]; simpl; intros w Hw.
  - intros [= <-]. assumption.
  - destruct (step e w) as [w1|] eqn:E; [|discriminate].
    apply IH. eapply step_one_timer; eassumption.
Qed.

Lemma reachable_one_timer (evs : list Event) (w : Panel) :
  run evs init = Some w -> one_timer w.
Proof. apply run_one_timer. left. reflexivity. Qed.

Lemma commit_stopped (w : Panel) :
  stopped w ->
  stopped (commit w) /\ status_requests (commit w) = status_requests w.
Proof.
  intros [Ht Hp]. unfold commit. destruct (mounted w) eqn:Hm.
  2: { split; [split; [assumption | congruence] | reflexivity]. }
  assert (Hpol : polling w = false) by auto.
  destruct (decide _); [split; [split|]; auto|].
  unfold run_effect, stopped.
  destruct (cleanup w); simpl; rewrite ?Hpol; simpl; rewrite ?Ht;
    destruct (pollRef w); simpl; auto.
Qed.

Lemma stopped_ext (w w' : Panel) :
  timers w' = timers w -> mounted w' = mounted w -> polling w' = polling w ->
  stopped w -> stopped w'.
Proof. unfold stopped. intros -> -> ->. auto. Qed.

Lemma setJob_stopped (j : option Job) (w : Panel) :
  stopped w -> stopped (setJob j w).
Proof.
  apply stopped_ext; unfold setJob; destruct (mounted w) eqn:E; auto.
Qed.

Lemma setJob_status_requests (j : option Job) (w : Panel) :
  status_requests (setJob j w) = status_requests w.
Proof. unfold setJob; destruct (mounted w); reflexivity. Qed.

Lemma setPolling_status_requests (b : bool) (w : Panel) :
  status_requests (setPolling b w) = status_requests w.
Proof. unfold setPolling; destruct (mounted w); reflexivity. Qed.

Lemma setPolling_false_mounted (w : Panel) :
  mounted (setPolling false w) = true -> polling (setPolling false w) = false.
Proof. unfold setPolling. destruct (mounted w) eqn:E; simpl; congruence. Qed.

(** What handling a terminal status leaves, from a state with at most
    one timer. *)
Lemma terminal_response_stopped (j : Job) (w : Panel) :
  one_timer w ->
  let w' := commit (clearInterval_pollRef (setPolling false (setJob (Some j) w))) in
  stopped w' /\ status_requests w' = status_requests w.
Proof.
  intros Hw w'.
  assert (Hs : stopped (clearInterval_pollRef (setPolling false (setJob (Some j) w)))).
  { split.
    - apply clear_timers, setPolling_one_timer, setJob_one_timer, Hw.
    - apply setPolling_false_mounted. }
  destruct (commit_stopped _ Hs) as [H1 H2]. split; [assumption|].
  unfold w'. rewrite H2. simpl.
  rewrite setPolling_status_requests, setJob_status_requests. reflexivity.
Qed.

Lemma unmount_status_requests (w : Panel) :
  status_requests (unmount w) = status_requests w.
Proof. unfold unmount. destruct (cleanup w); reflexivity. Qed.

Lemma torn_down_stopped (w : Panel) : torn_down w -> stopped w.
Proof. intros [Ht Hm]. split; [assumption | congruence]. Qed.

Lemma stopped_one_timer (w : Panel) : stopped w -> one_timer w.
Proof. intros [H _]. left. assumption. Qed.

(** Once polling has stopped it stays stopped, and no status request is
    sent, until a trigger answer brings a new job. *)
Lemma step_stopped (e : Event) (w w' : Panel) :
  starts_job e = false -> stopped w -> step e w = Some w' ->
  stopped w' /\ status_requests w' = status_requests w.
Proof.
  intros He Hw. destruct e as [src|n| |data|id|d| |]; simpl.
  - destruct (_ && _); intros [= <-]. split; [|reflexivity].
    revert Hw. apply stopped_ext; reflexivity.
  - destruct (_ && _); intros [= <-]. split; [|reflexivity].
    revert Hw. apply stopped_ext; reflexivity.
  - destruct (_ && _); intros [= <-]. split; [|reflexivity].
    revert Hw. apply stopped_ext; reflexivity.
  - destruct (pending_trigger w); [discriminate|].
    destruct data; [discriminate|]. intros [= <-]. split; [|reflexivity].
    revert Hw. apply stopped_ext; reflexivity.
  - destruct Hw as [-> _]. discriminate.
  - destruct (pending_status w) as [|m]; [discriminate|].
    set (w0 := add_requests (pending_trigger w) m (status_requests w) w).
    assert (Hw0 : stopped w0) by (revert Hw; apply stopped_ext; reflexivity).
    destruct d as [j|]; [|intros [= <-]; auto].
    destruct (terminal (status j)); intros [= <-].
    + apply (terminal_response_stopped j w0), stopped_one_timer, Hw0.
    + destruct (commit_stopped _ (setJob_stopped (Some j) _ Hw0)) as [H1 H2].
      split; [assumption|]. rewrite H2, setJob_status_requests. reflexivity.
  - destruct (job w); [|discriminate]. destruct (_ && _); intros [= <-]. split.
    + apply torn_down_stopped, unmount_torn_down, setJob_one_timer,
        stopped_one_timer, Hw.
    + rewrite unmount_status_requests, setJob_status_requests. reflexivity.
  - destruct (mounted w); intros [= <-]. split.
    + apply torn_down_stopped, unmount_torn_down, stopped_one_timer, Hw.
    + apply unmount_status_requests.
Qed.

Lemma run_stopped (evs : list Event) (w w' : Panel) :
  forallb (fun e => negb (starts_job e)) evs = true ->
  stopped w -> run evs w = Some w' ->
  stopped w' /\ status_requests w' = status_requests w.
Proof.
  revert w. induction evs as [|e evs IH]; simpl; intros w Hevs Hw.
  - intros [= <-]. auto.
  - apply andb_true_iff in Hevs as [He Hevs]. apply negb_true_iff in He.
    destruct (step e w) as [w1|] eqn:E; [|discriminate].
    destruct (step_stopped e w w1 He Hw E) as [H1 H2].
    intros Hr. destruct (IH w1 Hevs H1 Hr) as [H3 H4].
    split; [assumption | congruence].
Qed.

Lemma setJob_unmounted (j : option Job) (w : Panel) :
  mounted w = false -> setJob j w = w.
Proof. unfold setJob. intros ->. reflexivity. Qed.

Lemma setPolling_unmounted (b : bool) (w : Panel) :
  mounted w = false -> setPolling b w = w.
Proof. unfold setPolling. intros ->. reflexivity. Qed.

Lemma commit_unmounted (w : Panel) : mounted w = false -> commit w = w.
Proof. unfold commit. intros ->. reflexivity. Qed.

(** An unmounted panel ignores every state update: whatever arrives
    later, no timer is started and no status request is sent. *)
Lemma step_torn_down (e : Event) (w w' : Panel) :
  torn_down w -> step e w = Some w' ->
  torn_down w' /\ status_requests w' = status_requests w.
Proof.
  intros [Ht Hm]. unfold torn_down.
  destruct e as [src|n| |data|id|d| |]; simpl; rewrite ?Hm; simpl;
    try discriminate.
  - destruct (pending_trigger w) as [|m]; [discriminate|].
    destruct data; intros [= <-]; [|simpl; auto].
    rewrite setJob_unmounted, setPolling_unmounted, commit_unmounted by assumption.
    simpl. auto.
  - rewrite Ht. discriminate.
  - destruct (pending_status w) as [|m]; [discriminate|].
    destruct d as [j|]; [|intros [= <-]; simpl; auto].
    rewrite setJob_unmounted by assumption.
    destruct (terminal (status j)); intros [= <-].
    + rewrite setPolling_unmounted, commit_unmounted by assumption.
      simpl. rewrite Ht. destruct (pollRef w); auto.
    + rewrite commit_unmounted by assumption. simpl. auto.
  - destruct (job w); discriminate.
Qed.

Lemma run_torn_down (evs : list Event) (w w' : Panel) :
  torn_down w -> run evs w = Some w' ->
  torn_down w' /\ status_requests w' = status_requests w.
Proof.
  revert w. induction evs as [|e evs IH]; simpl; intros w Hw.
  - intros [= <-]. auto.
  - destruct (step e w) as [w1|] eqn:E; [|discriminate].
    destruct (step_torn_down e w w1 Hw E) as [H1 H2].
    intros Hr. destruct (IH w1 H1 Hr) as [H3 H4].
    split; [assumption | congruence].
Qed.

(** C4.  In every state the panel can reach: once the answer to a status
    poll carries a terminal status, no interval timer is live, and from
    then on no timer is live and no further status request is sent, as
    long as no trigger answer brings a new job; and once the panel is
    torn down (closed or dismissed), no interval timer is live, and none
    is ever started nor any status request sent again. *)
Theorem poll_stops_at_terminal_status (evs : list Event) (w : Panel)
    (Hreach : run evs init = Some w) :
  (forall (d : Job) (w2 : Panel),
     terminal (status d) = true ->
     step (StatusResponse (Some d)) w = Some w2 ->
     timers w2 = [] /\
     forall evs' w3,
       forallb (fun e => negb (starts_job e)) evs' = true ->
       run evs' w2 = Some w3 ->
       timers w3 = [] /\ status_requests w3 = status_requests w2) /\
  (forall (e : Event) (w2 : Panel),
     e = Close \/ e = Dismiss ->
     step e w = Some w2 ->
     timers w2 = [] /\
     forall evs' w3,
       run evs' w2 = Some w3 ->
       timers w3 = [] /\ status_requests w3 = status_requests w2).
Proof.
  pose proof (reachable_one_timer evs w Hreach) as Hw. split.
  - intros d w2 Hd Hstep. simpl in Hstep.
    destruct (pending_status w) as [|m]; [discriminate|].
    rewrite Hd in Hstep. injection Hstep as <-.
    destruct (terminal_response_stopped d
                (add_requests (pending_trigger w) m (status_requests w) w))
      as [Hs _].
    { apply add_requests_one_timer, Hw. }
    split; [apply Hs|].
    intros evs' w3 Hevs Hrun.
    destruct (run_stopped evs' _ w3 Hevs Hs Hrun) as [[H1 _] H2]. auto.
  - intros e w2 He Hstep.
    assert (Htd : torn_down w2).
    { destruct He as [-> | ->]; simpl in Hstep.
      - destruct (mounted w); [|discriminate]. injection Hstep as <-.
        apply unmount_torn_down, Hw.
      - destruct (job w); [|discriminate].
        destruct (_ && _); [|discriminate]. injection Hstep as <-.
        apply unmount_torn_down, setJob_one_timer, Hw. }
    split; [apply Htd|].
    intros evs' w3 Hrun.
    destruct (run_torn_down evs' _ w3 Htd Hrun) as [[H1 _] H2]. auto.
Qed.

Lemma poll_stops_at_terminal_status_witness :
  let w := after polled_twice in
  run polled_twice init = Some w /\
  timers w = [(1%nat, "job-1"%string)] /\
  (exists w2,
     step (StatusResponse (Some (job1 complete 100))) w = Some w2 /\
     timers w2 = [] /\
     forall evs' w3,
       forallb (fun e => negb (starts_job e)) evs' = true ->
       run evs' w2 = Some w3 ->
       timers w3 = [] /\ status_requests w3 = status_requests w2) /\
  (exists w2,
     step Close w = Some w2 /\
     timers w2 = [] /\
     forall evs' w3,
       run evs' w2 = Some w3 ->
       timers w3 = [] /\ status_requests w3 = status_requests w2).
Proof.
  intros w.
  assert (Hreach : run polled_twice init = Some w) by (vm_compute; reflexivity).
  destruct (poll_stops_at_terminal_status polled_twice w Hreach) as [HA HB].
  split; [assumption|]. split; [vm_compute; reflexivity|]. split.
  - eexists. split; [vm_compute; reflexivity|].
    apply (HA (job1 complete 100)); vm_compute; reflexivity.
  - eexists. split; [vm_compute; reflexivity|].
    apply (HB Close); [left; reflexivity | vm_compute; reflexivity].
Defined.

(** The poll goes on while the status is not terminal: after the answer
    [running] the timer is still live and its next tick sends a request. *)
Lemma poll_continues_while_running :
  timers (after polled_twice) = [(1%nat, "job-1"%string)] /\
  status_requests (after polled_twice) = ["job-1"; "job-1"]%string.
Proof. split; vm_compute; reflexivity. Qed.

(** C5, as the code has it.  When the trigger request fails, the panel's
    state is left as it was: nothing is set, no timer is started, and the
    panel shows what it showed before.  From the idle state it stays
    idle, on the form, and shows no error. *)
Theorem trigger_failure_leaves_state (w : Panel) (n : nat)
    (Hp : pending_trigger w = S n) :
  exists w',
    step (TriggerResponse None) w = Some w' /\
    pending_trigger w' = n /\
    job w' = job w /\ polling w' = polling w /\ timers w' = timers w /\
    mounted w' = mounted w /\
    render w' = render w /\
    (idle w -> idle w' /\ error_visible (render w') = false).
Proof.
  simpl. rewrite Hp. eexists. split; [reflexivity|]. simpl.
  repeat split; try reflexivity; try apply H.
  destruct H as (Hj & _). unfold render. simpl. rewrite Hj. reflexivity.
Qed.

Lemma trigger_failure_leaves_state_witness :
  exists w',
    step (TriggerResponse None) (after triggered) = Some w' /\
    pending_trigger w' = 0%nat /\
    job w' = job (after triggered) /\
    polling w' = polling (after triggered) /\
    timers w' = timers (after triggered) /\
    mounted w' = mounted (after triggered) /\
    render w' = render (after triggered) /\
    (idle (after triggered) -> idle w' /\ error_visible (render w') = false).
Proof.
  apply (trigger_failure_leaves_state (after triggered) 0).
  vm_compute; reflexivity.
Defined.

(** C5, as stated, fails.  After a failed trigger request the panel is
    idle but shows the form exactly as before the click, with no error;
    and after an answer without a job id it is not idle: the job is set
    and the panel is polling, with no timer and nothing to dismiss. *)
Lemma trigger_failure_shows_no_error :
  let w := after triggered in
  let no_id := {| job_id := None; status := queued; progress := 0; collected := 0 |} in
  run triggered init = Some w /\ idle w /\
  (exists w',
     step (TriggerResponse None) w = Some w' /\ idle w' /\
     render w' = render init /\
     error_visible (render w') = false) /\
  (exists w',
     step (TriggerResponse (Some no_id)) w = Some w' /\
     ~ idle w' /\ job w' = Some no_id /\ polling w' = true /\ timers w' = [] /\
     render w' = JobView no_id None /\
     error_visible (render w') = false).
Proof.
  intros w no_id. split; [vm_compute; reflexivity|].
  split; [repeat split; vm_compute; reflexivity|]. split.
  - eexists. split; [vm_compute; reflexivity|].
    repeat split; vm_compute; reflexivity.
  - eexists. split; [vm_compute; reflexivity|].
    split; [intros (Hj & _); vm_compute in Hj; discriminate|].
    repeat split; vm_compute; reflexivity.
Qed.

End Polling.

(** * Further properties of the dashboard code *)

(** ** Arithmetic helpers *)

Lemma max_Fin (x y : Q) : JS.max (Fin x) (Fin y) = Fin (Qmax x y).
Proof.
  unfold JS.max, Qmax, GenericMinMax.gmax; simpl.
  destruct (x ?= y); reflexivity.
Qed.

Lemma clamp_Fin (v lo hi : Q) :
  clamp (Fin v) (Fin lo) (Fin hi) = Fin (Qmax lo (Qmin hi v)).
Proof. unfold clamp. rewrite min_Fin, max_Fin. reflexivity. Qed.

(** Case analysis on every [Qmax] and [Qmin] in sight, then linear
    arithmetic. *)
Ltac qminmax :=
  repeat match goal with
         | |- context [Qmax ?a ?b] =>
             let S := fresh in
             let x := fresh in
             pose proof (Q.max_spec a b) as S;
             set (x := Qmax a b) in *; clearbody x;
             destruct S as [[? ?] | [? ?]]
         | |- context [Qmin ?a ?b] =>
             let S := fresh in
             let x := fresh in
             pose proof (Q.min_spec a b) as S;
             set (x := Qmin a b) in *; clearbody x;
             destruct S as [[? ?] | [? ?]]
         | _ : context [Qmax ?a ?b] |- _ =>
             let S := fresh in
             let x := fresh in
             pose proof (Q.max_spec a b) as S;
             set (x := Qmax a b) in *; clearbody x;
             destruct S as [[? ?] | [? ?]]
         | _ : context [Qmin ?a ?b] |- _ =>
             let S := fresh in
             let x := fresh in
             pose proof (Q.min_spec a b) as S;
             set (x := Qmin a b) in *; clearbody x;
             destruct S as [[? ?] | [? ?]]
         end;
  try Lqa.lra.

Lemma Qdiv_bounds (x d : Q) : 0 < d -> 0 <= x -> x <= d -> 0 <= x / d /\ x / d <= 1.
Proof.
  intros Hd H0 H1. split.
  - apply Qle_shift_div_l; [assumption | Lqa.lra].
  - apply Qle_shift_div_r; [assumption | Lqa.lra].
Qed.

Lemma Qdiv_le_compat (x y d : Q) : 0 < d -> x <= y -> x / d <= y / d.
Proof.
  intros Hd Hxy. unfold Qdiv. apply Qmult_le_compat_r; [assumption|].
  apply Qinv_le_0_compat. Lqa.lra.
Qed.

(** Rounding to the nearest integer stays between integer bounds. *)
Lemma round_bounds (x : Q) (m M : Z) :
  inject_Z m <= x -> x <= inject_Z M ->
  (m <= Qfloor (x + (1 # 2)) <= M)%Z.
Proof.
  intros Hm HM.
  pose proof (Qfloor_le (x + (1 # 2))) as Hle.
  pose proof (Qlt_floor (x + (1 # 2))) as Hlt.
  split.
  - assert (H : (m < Qfloor (x + (1 # 2)) + 1)%Z); [|lia].
    rewrite Zlt_Qlt. Lqa.lra.
  - assert (H : (Qfloor (x + (1 # 2)) < M + 1)%Z); [|lia].
    rewrite Zlt_Qlt, inject_Z_plus. change (inject_Z 1) with 1. Lqa.lra.
Qed.

Lemma floor_bounds (x : Q) (m M : Z) :
  inject_Z m <= x -> x < inject_Z M -> (m <= Qfloor x < M)%Z.
Proof.
  intros Hm HM.
  pose proof (Qfloor_le x) as Hle. pose proof (Qlt_floor x) as Hlt. split.
  - assert (H : (m < Qfloor x + 1)%Z); [|lia]. rewrite Zlt_Qlt. Lqa.lra.
  - rewrite Zlt_Qlt. Lqa.lra.
Qed.

(** X1.  [clamp] with finite bounds [lo <= hi] keeps a finite value
    within the bounds: a value inside them is returned unchanged, one
    below gives [lo], one above gives [hi]; a [NaN] value stays [NaN]. *)
Theorem clamp_within_bounds (v lo hi : Q) (Hb : lo <= hi) :
  exists c,
    clamp (Fin v) (Fin lo) (Fin hi) = Fin c /\
    lo <= c /\ c <= hi /\
    (lo <= v -> v <= hi -> c == v) /\
    (v <= lo -> c == lo) /\
    (hi <= v -> c == hi) /\
    clamp NaN (Fin lo) (Fin hi) = NaN.
Proof.
  exists (Qmax lo (Qmin hi v)). split; [apply clamp_Fin|].
  repeat split; intros; try reflexivity; qminmax.
Qed.

Lemma clamp_within_bounds_witness :
  exists c,
    clamp (Fin 130) (Fin 5) (Fin 100) = Fin c /\
    5 <= c /\ c <= 100 /\
    (5 <= 130 -> 130 <= 100 -> c == 130) /\
    (130 <= 5 -> c == 5) /\
    (100 <= 130 -> c == 100) /\
    clamp NaN (Fin 5) (Fin 100) = NaN.
Proof. apply (clamp_within_bounds 130 5 100). unfold Qle; simpl; lia. Defined.

(** ** Price colour *)

Lemma priceColor_t_Fin (p lo hi : Q) :
  lo < hi ->
  priceColor.t (Fin p) (Fin lo) (Fin hi)
  = Fin (Qmax 0 (Qmin 1 ((p - lo) / (hi - lo)))).
Proof.
  intros H. unfold priceColor.t, JS.sub. simpl JS.add.
  rewrite div_Fin by (change (hi + - lo) with (hi - lo); Lqa.lra).
  apply clamp_Fin.
Qed.

Lemma priceColor_t_range (p lo hi : Q) :
  lo < hi ->
  let tq := Qmax 0 (Qmin 1 ((p - lo) / (hi - lo))) in
  0 <= tq /\ tq <= 1 /\ (p <= lo -> tq == 0) /\ (hi <= p -> tq == 1).
Proof.
  intros H tq. unfold tq. repeat split; intros.
  - qminmax.
  - qminmax.
  - assert ((p - lo) / (hi - lo) <= 0)
      by (apply Qle_shift_div_r; Lqa.lra).
    qminmax.
  - assert (1 <= (p - lo) / (hi - lo))
      by (apply Qle_shift_div_l; Lqa.lra).
    qminmax.
Qed.

Lemma priceColor_t_monotone (p1 p2 lo hi : Q) :
  lo < hi -> p1 <= p2 ->
  Qmax 0 (Qmin 1 ((p1 - lo) / (hi - lo)))
  <= Qmax 0 (Qmin 1 ((p2 - lo) / (hi - lo))).
Proof.
  intros H Hp.
  assert ((p1 - lo) / (hi - lo) <= (p2 - lo) / (hi - lo))
    by (apply Qdiv_le_compat; Lqa.lra).
  qminmax.
Qed.

(** The channel [lerp] gives, as an integer. *)
Lemma lerp_Fin (tq a b : Q) :
  priceColor.lerp (Fin tq) (Fin a) (Fin b)
  = Fin (inject_Z (Qfloor (a + (b - a) * tq + (1 # 2)))).
Proof. reflexivity. Qed.

Lemma priceColor_Fin (p lo hi : Q) :
  lo < hi ->
  let tq := Qmax 0 (Qmin 1 ((p - lo) / (hi - lo))) in
  priceColor.priceColor (Fin p) (Fin lo) (Fin hi)
  = {| red := Fin (inject_Z (Qfloor (32 + (200 - 32) * tq + (1 # 2))));
       green := Fin (inject_Z (Qfloor (190 + (70 - 190) * tq + (1 # 2))));
       blue := Fin (inject_Z (Qfloor (160 + (45 - 160) * tq + (1 # 2)))) |}.
Proof.
  intros H tq. unfold priceColor.priceColor.
  rewrite priceColor_t_Fin by assumption. fold tq.
  rewrite !lerp_Fin. reflexivity.
Qed.

(** X2.  With [lo < hi], a price at or below [lo] gets exactly the low
    anchor colour (32,190,160), a price at or above [hi] exactly the high
    anchor (200,70,45), and the price halfway between gets (116,130,103):
    the blue midpoint 102.5 is rounded up. *)
Theorem priceColor_anchors (p lo hi : Q) (Hb : lo < hi) :
  (p <= lo ->
   priceColor.priceColor (Fin p) (Fin lo) (Fin hi)
   = {| red := Fin 32; green := Fin 190; blue := Fin 160 |}) /\
  (hi <= p ->
   priceColor.priceColor (Fin p) (Fin lo) (Fin hi)
   = {| red := Fin 200; green := Fin 70; blue := Fin 45 |}) /\
  (p == (lo + hi) / 2 ->
   priceColor.priceColor (Fin p) (Fin lo) (Fin hi)
   = {| red := Fin 116; green := Fin 130; blue := Fin 103 |}).
Proof.
  pose proof (priceColor_t_range p lo hi Hb) as (_ & _ & Hlo & Hhi).
  rewrite priceColor_Fin by assumption.
  set (tq := Qmax 0 (Qmin 1 ((p - lo) / (hi - lo)))) in *.
  split; [|split].
  - intros H. rewrite (Hlo H). reflexivity.
  - intros H. rewrite (Hhi H). reflexivity.
  - intros H.
    assert (Hx : (p - lo) / (hi - lo) == 1 # 2).
    { rewrite H. field. Lqa.lra. }
    assert (Ht : tq == 1 # 2) by (unfold tq; rewrite Hx; reflexivity).
    rewrite Ht. reflexivity.
Qed.

Lemma priceColor_anchors_witness :
  (4000 <= 1000 ->
   priceColor.priceColor (Fin 4000) (Fin 1000) (Fin 7000)
   = {| red := Fin 32; green := Fin 190; blue := Fin 160 |}) /\
  (7000 <= 4000 ->
   priceColor.priceColor (Fin 4000) (Fin 1000) (Fin 7000)
   = {| red := Fin 200; green := Fin 70; blue := Fin 45 |}) /\
  (4000 == (1000 + 7000) / 2 ->
   priceColor.priceColor (Fin 4000) (Fin 1000) (Fin 7000)
   = {| red := Fin 116; green := Fin 130; blue := Fin 103 |}).
Proof. apply (priceColor_anchors 4000 1000 7000). reflexivity. Defined.

(** X3.  With [lo < hi], every finite price gets integer channels within
    the anchors: red in 32..200, green in 70..190, blue in 45..160. *)
Theorem priceColor_channels_in_range (p lo hi : Q) (Hb : lo < hi) :
  exists r g b : Z,
    priceColor.priceColor (Fin p) (Fin lo) (Fin hi)
    = {| red := Fin (inject_Z r); green := Fin (inject_Z g);
         blue := Fin (inject_Z b) |} /\
    (32 <= r <= 200)%Z /\ (70 <= g <= 190)%Z /\ (45 <= b <= 160)%Z.
Proof.
  pose proof (priceColor_t_range p lo hi Hb) as (H0 & H1 & _ & _).
  rewrite priceColor_Fin by assumption.
  set (tq := Qmax 0 (Qmin 1 ((p - lo) / (hi - lo)))) in *.
  eexists _, _, _. split; [reflexivity|].
  clearbody tq.
  split; [|split]; apply round_bounds; cbv [inject_Z]; Lqa.lra.
Qed.

Lemma priceColor_channels_in_range_witness :
  exists r g b : Z,
    priceColor.priceColor (Fin 2900) (Fin 1000) (Fin 7000)
    = {| red := Fin (inject_Z r); green := Fin (inject_Z g);
         blue := Fin (inject_Z b) |} /\
    (32 <= r <= 200)%Z /\ (70 <= g <= 190)%Z /\ (45 <= b <= 160)%Z.
Proof. apply (priceColor_channels_in_range 2900 1000 7000). reflexivity. Defined.

(** X4.  With [lo < hi], the colour moves one way with the price: a
    higher price never has less red, nor more green or blue. *)
Theorem priceColor_monotone (p1 p2 lo hi : Q) (Hb : lo < hi) (Hp : p1 <= p2) :
  let c1 := priceColor.priceColor (Fin p1) (Fin lo) (Fin hi) in
  let c2 := priceColor.priceColor (Fin p2) (Fin lo) (Fin hi) in
  JS.le (red c1) (red c2) = true /\
  JS.ge (green c1) (green c2) = true /\
  JS.ge (blue c1) (blue c2) = true.
Proof.
  intros c1 c2. unfold c1, c2. rewrite !priceColor_Fin by assumption.
  pose proof (priceColor_t_monotone p1 p2 lo hi Hb Hp) as Ht.
  set (t1 := Qmax 0 (Qmin 1 ((p1 - lo) / (hi - lo)))) in *.
  set (t2 := Qmax 0 (Qmin 1 ((p2 - lo) / (hi - lo)))) in *.
  cbn [red green blue].
  rewrite le_Fin, !ge_Fin, <- !Zle_Qle. clearbody t1 t2.
  split; [|split]; apply Qfloor_resp_le; Lqa.lra.
Qed.

Lemma priceColor_monotone_witness :
  let c1 := priceColor.priceColor (Fin 1600) (Fin 1000) (Fin 7000) in
  let c2 := priceColor.priceColor (Fin 5957) (Fin 1000) (Fin 7000) in
  JS.le (red c1) (red c2) = true /\
  JS.ge (green c1) (green c2) = true /\
  JS.ge (blue c1) (blue c2) = true.
Proof.
  apply (priceColor_monotone 1600 5957 1000 7000); [reflexivity|].
  unfold Qle; simpl; lia.
Defined.

(** X5.  A price that is absent or not a number gives [NaN] in all three
    channels, whatever the bounds; so does a price equal to both bounds,
    where the ratio is [0/0]. *)
Theorem priceColor_NaN (lo hi : JS.number) (x : Q) :
  priceColor.of_price None = {| red := NaN; green := NaN; blue := NaN |} /\
  priceColor.priceColor NaN lo hi = {| red := NaN; green := NaN; blue := NaN |} /\
  priceColor.priceColor (Fin x) (Fin x) (Fin x)
  = {| red := NaN; green := NaN; blue := NaN |}.
Proof.
  split; [reflexivity|]. split.
  - unfold priceColor.priceColor, priceColor.t, clamp, JS.sub.
    destruct lo, hi; reflexivity.
  - unfold priceColor.priceColor, priceColor.t, JS.sub. simpl JS.add.
    assert (E : x + - x == 0) by ring.
    unfold JS.div. rewrite (proj2 (Qeq_bool_iff _ _) E).
    rewrite (proj1 (Qeq_alt _ _) E). reflexivity.
Qed.

(** ** Relative times and random ranges *)

(** X6.  [rel] prints [just now] under a minute (also for a timestamp in
    the future), then whole minutes from 1 to 59, whole hours from 1 to
    23, and whole days from 1 on; for a date that does not parse, where
    the elapsed time is [NaN], it prints [NaN] days. *)
Theorem rel_ranges (d : Q) :
  match rel (Fin d) with
  | JustNow => d < 60
  | MinutesAgo n =>
      exists z, n = Fin (inject_Z z) /\ (1 <= z <= 59)%Z /\ 60 <= d /\ d < 3600
  | HoursAgo n =>
      exists z, n = Fin (inject_Z z) /\ (1 <= z <= 23)%Z /\ 3600 <= d /\ d < 86400
  | DaysAgo n =>
      exists z, n = Fin (inject_Z z) /\ (1 <= z)%Z /\ 86400 <= d
  end /\
  rel NaN = DaysAgo NaN.
Proof.
  split; [|reflexivity]. unfold rel.
  destruct (JS.lt (Fin d) (Fin 60)) eqn:H1; [apply lt_Fin, H1|].
  apply lt_Fin_false in H1.
  destruct (JS.lt (Fin d) (Fin 3600)) eqn:H2.
  { apply lt_Fin in H2. rewrite div_Fin by discriminate.
    eexists. split; [reflexivity|]. split; [|split; assumption].
    assert (H : (1 <= Qfloor (d / 60) < 60)%Z); [|lia].
    apply floor_bounds.
    - apply Qle_shift_div_l; [reflexivity | cbv [inject_Z]; Lqa.lra].
    - apply Qlt_shift_div_r; [reflexivity | cbv [inject_Z]; Lqa.lra]. }
  apply lt_Fin_false in H2.
  destruct (JS.lt (Fin d) (Fin 86400)) eqn:H3.
  { apply lt_Fin in H3. rewrite div_Fin by discriminate.
    eexists. split; [reflexivity|]. split; [|split; assumption].
    assert (H : (1 <= Qfloor (d / 3600) < 24)%Z); [|lia].
    apply floor_bounds.
    - apply Qle_shift_div_l; [reflexivity | cbv [inject_Z]; Lqa.lra].
    - apply Qlt_shift_div_r; [reflexivity | cbv [inject_Z]; Lqa.lra]. }
  apply lt_Fin_false in H3. rewrite div_Fin by discriminate.
  eexists. split; [reflexivity|]. split; [|assumption].
  assert (H : (1 < Qfloor (d / 86400) + 1)%Z); [|lia].
  rewrite Zlt_Qlt.
  pose proof (Qlt_floor (d / 86400)) as Hlt.
  assert (1 <= d / 86400)
    by (apply Qle_shift_div_l; [reflexivity | Lqa.lra]).
  rewrite inject_Z_plus in *. cbv [inject_Z] in *. Lqa.lra.
Qed.



(** ** Maxima and minima of finite lists *)

Lemma max_list_finite (l : list JS.number) :
  (forall a, In a l -> JS.finite a) -> l <> [] ->
  exists m, JS.max_list l = Fin m /\ In (Fin m) l /\
            forall q, In (Fin q) l -> q <= m.
Proof.
  induction l as [|a l IH]; intros Hfin Hne; [congruence|].
  destruct (Hfin a (or_introl eq_refl)) as [q ->].
  destruct l as [|b l].
  - exists q. simpl. split; [reflexivity|]. split; [auto|].
    intros x [[= ->] | []]. apply Qle_refl.
  - destruct IH as (m & Hm & Hin & Hle); [intros; apply Hfin; right; assumption | discriminate |].
    change (JS.max_list (Fin q :: b :: l)) with (JS.max (Fin q) (JS.max_list (b :: l))).
    rewrite Hm. unfold JS.max. simpl JS.compare.
    destruct (q ?= m) eqn:E.
    + apply Qeq_alt in E. exists q. split; [reflexivity|]. split; [left; reflexivity|].
      intros x [[= ->] | Hx]; [apply Qle_refl|]. rewrite E. apply Hle, Hx.
    + apply Qlt_alt in E. exists m. split; [reflexivity|]. split; [right; assumption|].
      intros x [[= ->] | Hx]; [apply Qlt_le_weak, E | apply Hle, Hx].
    + apply Qgt_alt in E. exists q. split; [reflexivity|]. split; [left; reflexivity|].
      intros x [[= ->] | Hx]; [apply Qle_refl|].
      apply Qle_trans with m; [apply Hle, Hx | apply Qlt_le_weak, E].
Qed.

Lemma min_list_finite (l : list JS.number) :
  (forall a, In a l -> JS.finite a) -> l <> [] ->
  exists m, JS.min_list l = Fin m /\ In (Fin m) l /\
            forall q, In (Fin q) l -> m <= q.
Proof.
  induction l as [|a l IH]; intros Hfin Hne; [congruence|].
  destruct (Hfin a (or_introl eq_refl)) as [q ->].
  destruct l as [|b l].
  - exists q. simpl. split; [reflexivity|]. split; [auto|].
    intros x [[= ->] | []]. apply Qle_refl.
  - destruct IH as (m & Hm & Hin & Hle); [intros; apply Hfin; right; assumption | discriminate |].
    change (JS.min_list (Fin q :: b :: l)) with (JS.min (Fin q) (JS.min_list (b :: l))).
    rewrite Hm. unfold JS.min. simpl JS.compare.
    destruct (q ?= m) eqn:E.
    + apply Qeq_alt in E. exists q. split; [reflexivity|]. split; [left; reflexivity|].
      intros x [[= ->] | Hx]; [apply Qle_refl|]. rewrite E. apply Hle, Hx.
    + apply Qlt_alt in E. exists q. split; [reflexivity|]. split; [left; reflexivity|].
      intros x [[= ->] | Hx]; [apply Qle_refl|].
      apply Qle_trans with m; [apply Qlt_le_weak, E | apply Hle, Hx].
    + apply Qgt_alt in E. exists m. split; [reflexivity|]. split; [right; assumption|].
      intros x [[= ->] | Hx]; [apply Qlt_le_weak, E | apply Hle, Hx].
Qed.

(** ** Heatmap projection and bubble sizes *)

Lemma toX_Fin (lng : Q) :
  HeatmapViz.toX (Fin lng)
  = Fin ((lng - (14713 # 100)) / ((14721 # 100) - (14713 # 100)) * 520).
Proof.
  unfold HeatmapViz.toX, HeatmapViz.LNG0, HeatmapViz.LNG1, HeatmapViz.W, JS.sub.
  simpl JS.add. rewrite div_Fin by discriminate. reflexivity.
Qed.

Lemma toY_Fin (lat : Q) :
  HeatmapViz.toY (Fin lat)
  = Fin ((lat - (-9505 # 1000)) / ((-937 # 100) - (-9505 # 1000)) * 320).
Proof.
  unfold HeatmapViz.toY, HeatmapViz.LAT0, HeatmapViz.LAT1, HeatmapViz.H, JS.sub.
  simpl JS.add. rewrite div_Fin by discriminate. reflexivity.
Qed.

(** X8.  A position inside the bounding box (longitude 147.13..147.21,
    latitude -9.505..-9.37) is projected inside the 520 by 320 canvas;
    the west edge maps to x = 0, the east edge to x = 520, the south
    edge to y = 0 and the north edge to y = 320. *)
Theorem heatmap_projection_in_canvas (lat lng : Q)
    (Hlng0 : 14713 # 100 <= lng) (Hlng1 : lng <= 14721 # 100)
    (Hlat0 : -9505 # 1000 <= lat) (Hlat1 : lat <= -937 # 100) :
  exists x y,
    HeatmapViz.toX (Fin lng) = Fin x /\ HeatmapViz.toY (Fin lat) = Fin y /\
    0 <= x /\ x <= 520 /\ 0 <= y /\ y <= 320 /\
    (lng == 14713 # 100 -> x == 0) /\ (lng == 14721 # 100 -> x == 520) /\
    (lat == -9505 # 1000 -> y == 0) /\ (lat == -937 # 100 -> y == 320).
Proof.
  eexists _, _. split; [apply toX_Fin|]. split; [apply toY_Fin|].
  destruct (Qdiv_bounds (lng - (14713 # 100)) ((14721 # 100) - (14713 # 100)))
    as [Hx0 Hx1];
    [reflexivity | Lqa.lra | Lqa.lra |].
  destruct (Qdiv_bounds (lat - (-9505 # 1000)) ((-937 # 100) - (-9505 # 1000)))
    as [Hy0 Hy1];
    [reflexivity | Lqa.lra | Lqa.lra |].
  repeat split; try Lqa.lra; intros E; rewrite E; reflexivity.
Qed.

Lemma heatmap_projection_in_canvas_witness :
  exists x y,
    HeatmapViz.toX (Fin (1471812 # 10000)) = Fin x /\
    HeatmapViz.toY (Fin (-94298 # 10000)) = Fin y /\
    0 <= x /\ x <= 520 /\ 0 <= y /\ y <= 320 /\
    (1471812 # 10000 == 14713 # 100 -> x == 0) /\
    (1471812 # 10000 == 14721 # 100 -> x == 520) /\
    (-94298 # 10000 == -9505 # 1000 -> y == 0) /\
    (-94298 # 10000 == -937 # 100 -> y == 320).
Proof.
  apply (heatmap_projection_in_canvas (-94298 # 10000) (1471812 # 10000));
    unfold Qle; simpl; lia.
Defined.

Lemma foldr_Nmax_ge (l : list N) (x : N) :
  In x l -> (x <= foldr N.max 0%N l)%N.
Proof.
  induction l as [|a l IH]; simpl; [contradiction|].
  intros [-> | H]; [lia|]. specialize (IH H). lia.
Qed.

Lemma maxL_ge (suburbs : list HeatSuburb) (s : HeatSuburb) :
  In s suburbs ->
  (HeatmapViz.listings_or (listings s) 1 <= HeatmapViz.maxL suburbs)%N.
Proof.
  intros H. apply foldr_Nmax_ge.
  apply (List.in_map (fun s => HeatmapViz.listings_or (listings s) 1)) in H.
  exact H.
Qed.

Section RadiusBounds.

Local Open Scope R_scope.

(** X9.  A suburb of the data set with a non-zero listing count is drawn
    with a radius above 22 and at most 50. *)
Theorem bubble_radius_bounds (suburbs : list HeatSuburb) (s : HeatSuburb)
    (l : N) (Hin : In s suburbs) (Hs : listings s = Some l) (Hl : (0 < l)%N) :
  22 < HeatmapViz.r suburbs s /\ HeatmapViz.r suburbs s <= 50.
Proof.
  pose proof (maxL_ge suburbs s Hin) as Hle.
  unfold HeatmapViz.r. rewrite Hs in *.
  rewrite listings_or_nonzero in * by assumption.
  set (M := HeatmapViz.maxL suburbs) in *.
  assert (HM : (0 < M)%N) by lia. split.
  - unfold HeatmapViz.rOf.
    assert (0 < sqrt (N2R l / N2R M)); [|Lra.lra].
    apply sqrt_lt_R0, Rdiv_lt_0_compat; apply N2R_pos; assumption.
  - rewrite <- (rOf_max M HM). apply rOf_monotone; assumption.
Qed.

Lemma bubble_radius_bounds_witness :
  22 < HeatmapViz.r hm_sample (hm_with "Badili" 5) /\
  HeatmapViz.r hm_sample (hm_with "Badili" 5) <= 50.
Proof.
  apply (bubble_radius_bounds hm_sample (hm_with "Badili" 5) 5).
  - simpl. right. right. left. reflexivity.
  - reflexivity.
  - lia.
Defined.

(** X10.  A suburb whose listing count is zero or absent is drawn at
    least as large as any suburb with up to 20 listings; and in a data
    set whose largest count is below 20 its radius exceeds 50, the radius
    of the largest count. *)
Theorem bubble_radius_zero_count (suburbs : list HeatSuburb)
    (s0 s : HeatSuburb) (l : N)
    (HM : (0 < HeatmapViz.maxL suburbs)%N)
    (H0 : listings s0 = Some 0%N \/ listings s0 = None)
    (Hs : listings s = Some l) (Hl : (0 < l <= 20)%N) :
  HeatmapViz.r suburbs s <= HeatmapViz.r suburbs s0 /\
  ((HeatmapViz.maxL suburbs < 20)%N -> 50 < HeatmapViz.r suburbs s0).
Proof.
  unfold HeatmapViz.r.
  assert (E0 : HeatmapViz.listings_or (listings s0) 20 = 20%N)
    by (destruct H0 as [-> | ->]; reflexivity).
  rewrite E0, Hs, listings_or_nonzero by lia.
  set (M := HeatmapViz.maxL suburbs) in *. split.
  - apply rOf_monotone; lia.
  - intros Hlt. unfold HeatmapViz.rOf.
    assert (1 < sqrt (N2R 20 / N2R M)); [|Lra.lra].
    rewrite <- sqrt_1 at 1. apply sqrt_lt_1_alt. split; [Lra.lra|].
    pose proof (N2R_pos M HM) as HMpos.
    apply Rmult_lt_reg_r with (N2R M); [assumption|].
    unfold Rdiv. rewrite Rmult_assoc, Rinv_l, Rmult_1_r, Rmult_1_l
      by (apply Rgt_not_eq; assumption).
    apply IZR_lt. lia.
Qed.

Lemma bubble_radius_zero_count_witness :
  let few := [hm_with "Koki" 0; hm_with "Badili" 5] in
  HeatmapViz.r few (hm_with "Badili" 5) <= HeatmapViz.r few (hm_with "Koki" 0) /\
  ((HeatmapViz.maxL few < 20)%N -> 50 < HeatmapViz.r few (hm_with "Koki" 0)).
Proof.
  apply (bubble_radius_zero_count
           [hm_with "Koki" 0; hm_with "Badili" 5]
           (hm_with "Koki" 0) (hm_with "Badili" 5) 5).
  - vm_compute. reflexivity.
  - left. reflexivity.
  - reflexivity.
  - lia.
Defined.

End RadiusBounds.

(** X11.  The ranking bar of a suburb is between 5 and 100 percent wide
    for every finite average price, and is the price as a percentage of
    7000 when that lies in between; without an average price its width
    is [NaN]. *)
Theorem ranking_width_bounds (a : Q) :
  (exists w,
     ranking_width (Some (Fin a)) = Fin w /\ 5 <= w /\ w <= 100 /\
     (350 <= a -> a <= 7000 -> w == a / 7000 * 100)) /\
  ranking_width None = NaN.
Proof.
  split; [|reflexivity].
  unfold ranking_width. simpl JS.toNumber.
  rewrite div_Fin by discriminate. simpl JS.mul. rewrite clamp_Fin.
  eexists. split; [reflexivity|].
  assert (E : a / 7000 * 100 == a * (1 # 70)) by (field; discriminate).
  repeat split; intros; rewrite ?E; qminmax.
Qed.

(** ** Bars and shares of a maximum *)

Lemma In_take {A : Type} (n : nat) (l : list A) (x : A) :
  In x (take n l) -> In x l.
Proof.
  intros H. rewrite <- (List.firstn_skipn n l). apply in_or_app. left. exact H.
Qed.

Lemma orV_nonneg (v : Q) :
  exists v', JS.orV (Some (Fin v)) (Fin 0) = Fin v' /\ v' == v.
Proof.
  unfold JS.orV, JS.or, JS.truthy.
  destruct (Qeq_bool v 0) eqn:E; simpl.
  - exists 0. split; [reflexivity|]. apply Qeq_bool_iff in E. rewrite E. reflexivity.
  - exists v. split; reflexivity.
Qed.

(** The maximum of [d => f(d) || 0] over records whose [f] is a finite
    non-negative number: it bounds every value and is one of them. *)
Lemma max_orV_bound {A : Type} (f : A -> JS.value) (l : list A) :
  (forall d, In d l -> exists v, f d = Some (Fin v) /\ 0 <= v) -> l <> [] ->
  exists m,
    JS.max_list (List.map (fun d => JS.orV (f d) (Fin 0)) l) = Fin m /\
    (forall d v, In d l -> f d = Some (Fin v) -> v <= m) /\
    (exists d v, In d l /\ f d = Some (Fin v) /\ v == m).
Proof.
  intros Hfin Hne.
  destruct (max_list_finite (List.map (fun d => JS.orV (f d) (Fin 0)) l))
    as (m & Hm & Hin & Hle).
  - intros a Ha. apply List.in_map_iff in Ha as (d & <- & Hd).
    destruct (Hfin d Hd) as (v & -> & _).
    destruct (orV_nonneg v) as (v' & -> & _). eexists. reflexivity.
  - destruct l; [congruence | discriminate].
  - exists m. split; [assumption|]. split.
    + intros d v Hd Hv.
      destruct (orV_nonneg v) as (v' & Hv' & E). rewrite <- E.
      apply Hle. rewrite <- Hv', <- Hv.
      apply (List.in_map (fun d => JS.orV (f d) (Fin 0))). assumption.
    + apply List.in_map_iff in Hin as (d & Hd & Hin).
      destruct (Hfin d Hin) as (v & Hv & _).
      exists d, v. split; [assumption|]. split; [assumption|].
      rewrite Hv in Hd. destruct (orV_nonneg v) as (v' & Hv' & E).
      rewrite Hv' in Hd. injection Hd as ->. symmetry. assumption.
Qed.

(** X12.  When every value is a finite non-negative number and one is
    positive, the chart draws at most ten bars, each of a datum of the
    data, between 0 and 100 percent wide; a bar whose value is the
    maximum is 100 percent wide. *)
Theorem BarChart_widths (data : list Bar)
    (Hfin : forall d, In d data -> exists v, bar_value d = Some (Fin v) /\ 0 <= v)
    (Hpos : exists d v, In d data /\ bar_value d = Some (Fin v) /\ 0 < v) :
  exists m bars,
    BarChart.max data = Fin m /\ 0 < m /\
    BarChart.render data = Some bars /\
    (length bars <= 10)%nat /\
    forall d w, In (d, w) bars ->
      In d data /\
      exists v q, bar_value d = Some (Fin v) /\ w = Fin q /\
                  0 <= q /\ q <= 100 /\ (v == m -> q == 100).
Proof.
  destruct Hpos as (d0 & v0 & Hd0 & Hv0 & Hv0pos).
  assert (Hne : data <> []) by (intros ->; contradiction).
  destruct (max_orV_bound bar_value data Hfin Hne) as (m & Hm & Hle & _).
  assert (Hmpos : 0 < m).
  { apply Qlt_le_trans with v0; [assumption | apply (Hle d0 v0 Hd0 Hv0)]. }
  exists m, (List.map (fun d => (d, BarChart.width (Fin m) d)) (take 10 data)).
  split; [exact Hm|]. split; [assumption|]. split.
  { unfold BarChart.render. destruct data; [congruence|].
    unfold BarChart.max in *. rewrite Hm. reflexivity. }
  split.
  { rewrite length_map. apply List.firstn_le_length. }
  intros d w Hin. apply List.in_map_iff in Hin as (d' & [= -> <-] & Hin).
  apply In_take in Hin. split; [assumption|].
  destruct (Hfin d Hin) as (v & Hv & Hv0').
  pose proof (Hle d v Hin Hv) as Hvm.
  exists v, (v / m * 100). unfold BarChart.width. rewrite Hv. simpl JS.toNumber.
  rewrite div_Fin by Lqa.lra.
  split; [reflexivity|]. split; [reflexivity|].
  destruct (Qdiv_bounds v m Hmpos Hv0' Hvm) as [H0 H1].
  repeat split; try Lqa.lra.
  intros E. rewrite E. field. Lqa.lra.
Qed.

Lemma BarChart_widths_witness :
  let data := [ {| bar_label := "Hausples"; bar_value := Some (Fin 40) |};
                {| bar_label := "MarketMeri"; bar_value := Some (Fin 10) |} ] in
  exists m bars,
    BarChart.max data = Fin m /\ 0 < m /\
    BarChart.render data = Some bars /\
    (length bars <= 10)%nat /\
    forall d w, In (d, w) bars ->
      In d data /\
      exists v q, bar_value d = Some (Fin v) /\ w = Fin q /\
                  0 <= q /\ q <= 100 /\ (v == m -> q == 100).
Proof.
  intros data. apply (BarChart_widths data).
  - intros d [<- | [<- | []]]; eexists; (split; [reflexivity|]);
      unfold Qle; simpl; lia.
  - eexists _, _. split; [left; reflexivity|]. split; reflexivity.
Defined.

Lemma max_list_zeros {A : Type} (f : A -> JS.value) (l : list A) :
  (forall d, In d l -> JS.truthyV (f d) = false) -> l <> [] ->
  JS.max_list (List.map (fun d => JS.orV (f d) (Fin 0)) l) = Fin 0.
Proof.
  induction l as [|a l IH]; intros Hf Hne; [congruence|].
  assert (Ha : JS.orV (f a) (Fin 0) = Fin 0).
  { pose proof (Hf a (or_introl eq_refl)) as H. unfold JS.orV, JS.truthyV in *.
    destruct (f a); [apply or_falsy; assumption | reflexivity]. }
  change (JS.max_list (List.map (fun d => JS.orV (f d) (Fin 0)) (a :: l)))
    with (JS.max (JS.orV (f a) (Fin 0))
                 (JS.max_list (List.map (fun d => JS.orV (f d) (Fin 0)) l))).
  rewrite Ha. destruct l as [|b l]; [reflexivity|].
  rewrite IH; [reflexivity | intros; apply Hf; right; assumption | discriminate].
Qed.

Lemma falsy_over_zero (v : JS.value) :
  JS.truthyV v = false -> JS.div (JS.toNumber v) (Fin 0) = NaN.
Proof.
  destruct v as [[q| | |]|]; simpl; try discriminate; try reflexivity.
  intros H. apply negb_false_iff, Qeq_bool_iff in H.
  rewrite (proj1 (Qeq_alt _ _) H). reflexivity.
Qed.

(** X13.  When every value of a non-empty data set is zero or missing,
    the maximum is 0 and every bar drawn has the width [0/0 * 100], that
    is [NaN]. *)
Theorem BarChart_all_zero (data : list Bar)
    (Hz : forall d, In d data -> JS.truthyV (bar_value d) = false)
    (Hne : data <> []) :
  BarChart.max data = Fin 0 /\
  exists bars,
    BarChart.render data = Some bars /\
    length bars = Nat.min 10 (length data) /\
    forall d w, In (d, w) bars -> w = NaN.
Proof.
  pose proof (max_list_zeros bar_value data Hz Hne) as Hm.
  split; [exact Hm|].
  exists (List.map (fun d => (d, BarChart.width (Fin 0) d)) (take 10 data)).
  split.
  { unfold BarChart.render. destruct data; [congruence|].
    unfold BarChart.max in *. rewrite Hm. reflexivity. }
  split.
  { rewrite length_map. apply List.length_firstn. }
  intros d w Hin. apply List.in_map_iff in Hin as (d' & [= -> <-] & Hin).
  apply In_take in Hin. unfold BarChart.width.
  rewrite falsy_over_zero by (apply Hz; assumption). reflexivity.
Qed.

Lemma BarChart_all_zero_witness :
  let data := [ {| bar_label := "Hausples"; bar_value := Some (Fin 0) |};
                {| bar_label := "MarketMeri"; bar_value := None |} ] in
  BarChart.max data = Fin 0 /\
  exists bars,
    BarChart.render data = Some bars /\
    length bars = Nat.min 10 (length data) /\
    forall d w, In (d, w) bars -> w = NaN.
Proof.
  intros data. apply (BarChart_all_zero data).
  - intros d [<- | [<- | []]]; reflexivity.
  - discriminate.
Defined.

(** X14.  The suburb with the largest supply has the supply percentage
    100, so its ratio is its demand over 100: with a demand score of at
    most 100 neither view labels it High Demand, and both label it
    Oversupply exactly when the demand used is below 70. *)
Theorem largest_supply_never_high_demand (data : list SupplyStat)
    (d : SupplyStat) (s D : Q)
    (Hfin : forall d', In d' data -> exists v, supply d' = Some (Fin v) /\ 0 <= v)
    (Hin : In d data) (Hs : supply d = Some (Fin s)) (Hspos : 0 < s)
    (Hmax : forall d' v, In d' data -> supply d' = Some (Fin v) -> v <= s)
    (HD : JS.orV (demand_score d) (Fin 50) = Fin D) (HD100 : D <= 100) :
  let M := SupplyDemand.maxS data in
  (exists p, SupplyDemand.supplyPct M d = Fin p /\ p == 100) /\
  SupplyDemand.label M d <> HighDemand /\
  AnalyticsView.label (AnalyticsView.maxSup data) d <> HighDemand /\
  (SupplyDemand.label M d = Oversupply <-> D < 70) /\
  (AnalyticsView.label (AnalyticsView.maxSup data) d = Oversupply <-> D < 70).
Proof.
  intros M.
  assert (Hne : data <> []) by (intros ->; contradiction).
  destruct (max_orV_bound supply data Hfin Hne) as (m & Hm & Hle & (d1 & v1 & Hd1 & Hv1 & E1)).
  change (SupplyDemand.maxS data = Fin m) in Hm.
  change (AnalyticsView.maxSup data) with M. unfold M. rewrite Hm.
  assert (Esm : s == m).
  { apply Qle_antisym; [apply (Hle d s Hin Hs)|].
    rewrite <- E1. apply (Hmax d1 v1 Hd1 Hv1). }
  assert (Hm0 : ~ m == 0) by Lqa.lra.
  assert (Hpct : SupplyDemand.supplyPct (Fin m) d = Fin (Qmin 100 (s / m * 100))).
  { unfold SupplyDemand.supplyPct. rewrite Hs. simpl JS.toNumber.
    rewrite div_Fin by assumption. apply min_Fin. }
  assert (Hp : Qmin 100 (s / m * 100) == 100).
  { assert (s / m * 100 == 100) by (rewrite Esm; field; assumption).
    qminmax. }
  set (p := Qmin 100 (s / m * 100)) in *.
  assert (Hp0 : ~ p == 0) by Lqa.lra.
  assert (Hr : D / p == D / 100) by (rewrite Hp; reflexivity).
  assert (Hsd : SupplyDemand.ratio (Fin m) d = Fin (D / p)).
  { unfold SupplyDemand.ratio. rewrite HD, Hpct.
    rewrite or_truthy by (apply truthy_Fin; assumption).
    apply div_Fin; assumption. }
  assert (Hav : AnalyticsView.ratio (Fin m) d = Fin (D / p)).
  { rewrite AnalyticsView_ratio_unfold, HD, Hpct.
    rewrite or_truthy by (apply truthy_Fin; assumption).
    apply div_Fin; assumption. }
  assert (Hq : D / 100 == D * (1 # 100)) by (field; discriminate).
  pose proof (sd_label_of_ratio (D / p)) as (T1 & T2 & _).
  assert (Hl1 : SupplyDemand.label (Fin m) d
                = (if JS.gt (Fin (D / p)) (Fin (13 # 10)) then HighDemand
                   else if JS.lt (Fin (D / p)) (Fin (7 # 10)) then Oversupply
                   else Balanced))
    by (unfold SupplyDemand.label; rewrite Hsd; reflexivity).
  assert (Hl2 : AnalyticsView.label (Fin m) d
                = (if JS.gt (Fin (D / p)) (Fin (13 # 10)) then HighDemand
                   else if JS.lt (Fin (D / p)) (Fin (7 # 10)) then Oversupply
                   else Balanced))
    by (unfold AnalyticsView.label; rewrite Hav; reflexivity).
  rewrite Hl1, Hl2, T1, T2, Hr, Hq.
  split; [exists p; split; [exact Hpct | exact Hp]|].
  repeat split; intros; Lqa.lra.
Qed.

Lemma largest_supply_never_high_demand_witness :
  let data := [sd_no_demand; sd_peak] in
  let M := SupplyDemand.maxS data in
  (exists p, SupplyDemand.supplyPct M sd_peak = Fin p /\ p == 100) /\
  SupplyDemand.label M sd_peak <> HighDemand /\
  AnalyticsView.label (AnalyticsView.maxSup data) sd_peak <> HighDemand /\
  (SupplyDemand.label M sd_peak = Oversupply <-> 90 < 70) /\
  (AnalyticsView.label (AnalyticsView.maxSup data) sd_peak = Oversupply <-> 90 < 70).
Proof.
  apply (largest_supply_never_high_demand [sd_no_demand; sd_peak] sd_peak 100 90).
  - intros d [<- | [<- | []]]; eexists; (split; [reflexivity|]);
      unfold Qle; simpl; lia.
  - right. left. reflexivity.
  - reflexivity.
  - reflexivity.
  - intros d v [<- | [<- | []]] [= <-]; unfold Qle; simpl; lia.
  - reflexivity.
  - unfold Qle; simpl; lia.
Defined.

(** ** Prices of the mock listings *)

Lemma mock_price_Fin (b q : Q) :
  mockListings.price (Fin b) (Fin q)
  = Fin (Qmax 800 (inject_Z (Qfloor (b * ((3 # 4) + q * (3 # 5)) + (1 # 2))))).
Proof. unfold mockListings.price. simpl JS.round. apply max_Fin. Qed.

Lemma mock_price_range (b q : Q) :
  0 < b -> 0 <= q -> q < 1 ->
  let p := Qmax 800 (inject_Z (Qfloor (b * ((3 # 4) + q * (3 # 5)) + (1 # 2)))) in
  800 <= p /\ b * (3 # 4) - (1 # 2) < p /\ p <= Qmax 800 (b * (27 # 20) + (1 # 2)).
Proof.
  intros Hb Hq0 Hq1 p.
  assert (H0 : 0 <= b * q) by (apply Qmult_le_0_compat; Lqa.lra).
  assert (H1 : b * q < b).
  { rewrite <- (Qmult_1_r b) at 2. apply Qmult_lt_l; assumption. }
  pose proof (Qfloor_le (b * ((3 # 4) + q * (3 # 5)) + (1 # 2))) as Hle.
  pose proof (Qlt_floor (b * ((3 # 4) + q * (3 # 5)) + (1 # 2))) as Hlt.
  rewrite inject_Z_plus in Hlt. change (inject_Z 1) with 1 in Hlt.
  unfold p.
  set (z := inject_Z (Qfloor (b * ((3 # 4) + q * (3 # 5)) + (1 # 2)))) in *.
  clearbody z.
  repeat split; qminmax.
Qed.

(** X15.  For a positive benchmark and a random draw in [0,1), the mock
    price is a whole number, at least 800, above 75 percent of the
    benchmark less one half, and at most the larger of 800 and 135
    percent of the benchmark plus one half. *)
Theorem mock_price_bounds (b q : Q) (Hb : 0 < b) (Hq0 : 0 <= q) (Hq1 : q < 1) :
  exists p z,
    mockListings.price (Fin b) (Fin q) = Fin p /\ p == inject_Z z /\
    800 <= p /\ b * (3 # 4) - (1 # 2) < p /\
    p <= Qmax 800 (b * (27 # 20) + (1 # 2)).
Proof.
  pose proof (mock_price_range b q Hb Hq0 Hq1) as H.
  set (z := Qfloor (b * ((3 # 4) + q * (3 # 5)) + (1 # 2))) in *.
  exists (Qmax 800 (inject_Z z)), (Z.max 800 z).
  split; [apply mock_price_Fin|]. split; [|exact H].
  destruct (Q.max_spec 800 (inject_Z z)) as [[Hlt ->] | [Hle ->]].
  - change 800 with (inject_Z 800) in Hlt. rewrite <- Zlt_Qlt in Hlt.
    rewrite Z.max_r by lia. reflexivity.
  - change 800 with (inject_Z 800) in Hle. rewrite <- Zle_Qle in Hle.
    rewrite Z.max_l by lia. reflexivity.
Qed.

Lemma mock_price_bounds_witness :
  exists p z,
    mockListings.price (Fin 4470) (Fin (1 # 2)) = Fin p /\ p == inject_Z z /\
    800 <= p /\ 4470 * (3 # 4) - (1 # 2) < p /\
    p <= Qmax 800 (4470 * (27 # 20) + (1 # 2)).
Proof.
  apply (mock_price_bounds 4470 (1 # 2)).
  - reflexivity.
  - unfold Qle; simpl; lia.
  - reflexivity.
Defined.

Lemma base_at_least (table : gmap string JS.number) (sub : string) (k : Q) :
  0 < k -> k <= 2500 ->
  (forall s a, table !! s = Some a -> exists b, a = Fin b /\ k <= b) ->
  exists b, mockListings.base table sub = Fin b /\ k <= b.
Proof.
  intros Hk Hk' Ht. unfold mockListings.base.
  destruct (table !! sub) as [a|] eqn:E; simpl.
  - destruct (Ht sub a E) as (b & -> & Hb). exists b.
    rewrite or_truthy; [auto|]. apply truthy_Fin. Lqa.lra.
  - exists 2500. auto.
Qed.

(** No mock listing is flagged when the benchmark is at least 572: its
    price is at most 40 percent over the benchmark. *)
Lemma mock_listing_not_flagged (table : gmap string JS.number) (q : Q) (i : nat) :
  (forall s a, table !! s = Some a -> exists b, a = Fin b /\ 572 <= b) ->
  0 <= q -> q < 1 ->
  isFlag (mockListings.listing table (Fin q) i) = false.
Proof.
  intros Ht Hq0 Hq1. rewrite mock_listing_isFlag.
  unfold mockListings.listing. cbn [suburb price_monthly_k].
  set (sub := default ""%string (SUBURBS !! (i `mod` length SUBURBS)%nat)).
  destruct (base_at_least table sub 572) as (b & -> & Hb);
    [reflexivity | unfold Qle; simpl; lia | assumption |].
  assert (Hbpos : 0 < b) by Lqa.lra.
  rewrite mock_price_Fin.
  pose proof (mock_price_range b q Hbpos Hq0 Hq1) as (_ & _ & Hp).
  set (p := Qmax 800 (inject_Z (Qfloor (b * ((3 # 4) + q * (3 # 5)) + (1 # 2))))) in *.
  clearbody p.
  rewrite pct_Fin by Lqa.lra. apply gt_Fin_false.
  assert (Hle : p <= b * (7 # 5)) by qminmax.
  assert (Hd : (p - b) / b <= 2 # 5) by (apply Qle_shift_div_r; Lqa.lra).
  Lqa.lra.
Qed.

(** X16.  With benchmarks of at least 572, as all of the source's table
    are, and random draws in [0,1), no mock listing is more than 40
    percent over its benchmark: the flagged view's offline fallback is
    always the empty list. *)
Theorem FlagsView_fallback_empty (table : gmap string JS.number)
    (rnd : nat -> JS.number) (n : nat)
    (Ht : forall s a, table !! s = Some a -> exists b, a = Fin b /\ 572 <= b)
    (Hr : forall i, exists q, rnd i = Fin q /\ 0 <= q /\ q < 1) :
  FlagsView.flagged None (mockListings.mockListings table rnd n) = [] /\
  forall l, In l (mockListings.mockListings table rnd n) -> isFlag l = false.
Proof.
  assert (H : forall l, In l (mockListings.mockListings table rnd n) -> isFlag l = false).
  { intros l Hl. unfold mockListings.mockListings in Hl.
    apply List.in_map_iff in Hl as (i & <- & _).
    destruct (Hr i) as (q & -> & Hq0 & Hq1).
    apply mock_listing_not_flagged; assumption. }
  split; [|exact H].
  rewrite FlagsView_fallback_filter.
  induction (mockListings.mockListings table rnd n) as [|l ls IH]; [reflexivity|].
  simpl. rewrite (H l (or_introl eq_refl)). apply IH.
  intros l' Hl'. apply H. right. assumption.
Qed.

Lemma benchmarks_at_least_572 (s : string) (a : JS.number) :
  mockListings.benchmarks !! s = Some a -> exists b, a = Fin b /\ 572 <= b.
Proof.
  intros H. apply elem_of_list_to_map_2 in H.
  repeat (apply elem_of_cons in H as [[= -> ->] | H];
          [eexists; split; [reflexivity | unfold Qle; simpl; lia]|]).
  apply elem_of_nil in H. contradiction.
Qed.

Lemma FlagsView_fallback_empty_witness :
  let rnd := fun i : nat => Fin (inject_Z (Z.of_nat (i mod 10)) / 10) in
  FlagsView.flagged None (mockListings.mockListings mockListings.benchmarks rnd 60) = [] /\
  forall l, In l (mockListings.mockListings mockListings.benchmarks rnd 60) ->
            isFlag l = false.
Proof.
  intros rnd.
  apply (FlagsView_fallback_empty mockListings.benchmarks rnd 60).
  - exact benchmarks_at_least_572.
  - intros i. eexists. split; [reflexivity|].
    assert (H : (0 <= Z.of_nat (i mod 10) < 10)%Z).
    { pose proof (Nat.mod_upper_bound i 10). lia. }
    split.
    + apply Qle_shift_div_l; [reflexivity|].
      change (0 * 10) with (inject_Z 0). rewrite <- Zle_Qle. lia.
    + apply Qlt_shift_div_r; [reflexivity|].
      change (1 * 10) with (inject_Z 10). rewrite <- Zlt_Qlt. lia.
Defined.

(** ** Geometry of the trend chart *)

Lemma allV_In (trends : list TrendPoint) (j : nat) (d : TrendPoint) (k : Key) :
  trends !! j = Some d -> JS.truthyV (get d k) = true ->
  In (get d k) (LineChart.allV trends).
Proof.
  intros Hj Ht. unfold LineChart.allV. apply List.in_flat_map.
  exists d. split.
  - apply list_elem_of_In, list_elem_of_lookup. eauto.
  - apply List.filter_In. split; [|assumption].
    apply (List.in_map (fun k => get d k)). destruct k; simpl; auto.
Qed.

Lemma allV_elem (trends : list TrendPoint) (v : JS.value) :
  In v (LineChart.allV trends) ->
  exists d k, In d trends /\ v = get d k /\ JS.truthyV v = true.
Proof.
  unfold LineChart.allV. intros H.
  apply List.in_flat_map in H as (d & Hd & H).
  apply List.filter_In in H as [H Ht].
  apply List.in_map_iff in H as (k & <- & _). eauto.
Qed.

Section FiniteValues.

Variable trends : list TrendPoint.
Hypothesis Hfin :
  forall d k, In d trends -> get d k = None \/ exists q, get d k = Some (Fin q).

Lemma allV_numbers_finite (a : JS.number) :
  In a (List.map JS.toNumber (LineChart.allV trends)) -> JS.finite a.
Proof using Hfin.
  intros H. apply List.in_map_iff in H as (v & <- & Hv).
  apply allV_elem in Hv as (d & k & Hd & -> & Ht).
  destruct (Hfin d k Hd) as [E | [q E]]; rewrite E in *.
  - discriminate.
  - exists q. reflexivity.
Qed.

(** The bounds and the range of line 137 when a value is present. *)
Lemma chart_range :
  LineChart.allV trends <> [] ->
  exists m M r,
    LineChart.minV trends = Fin m /\ LineChart.maxV trends = Fin M /\
    LineChart.range trends = Fin r /\ 0 < r /\ M - m <= r /\
    forall q, In (Fin q) (List.map JS.toNumber (LineChart.allV trends)) ->
              m <= q /\ q <= M.
Proof using Hfin.
  intros Hne.
  assert (Hne' : List.map JS.toNumber (LineChart.allV trends) <> [])
    by (destruct (LineChart.allV trends); [congruence | discriminate]).
  destruct (min_list_finite _ allV_numbers_finite Hne') as (m & Hm & Hmin & Hle).
  destruct (max_list_finite _ allV_numbers_finite Hne') as (M & HM & _ & Hge).
  assert (HmM : m <= M) by (apply Hge, Hmin).
  exists m, M, (if Qeq_bool (M - m) 0 then 1 else M - m).
  split; [exact Hm|]. split; [exact HM|]. split.
  { unfold LineChart.range. fold (LineChart.minV trends) in Hm.
    fold (LineChart.maxV trends) in HM. rewrite Hm, HM.
    unfold JS.sub, JS.or. simpl. change (M + - m) with (M - m).
    destruct (Qeq_bool (M - m) 0); reflexivity. }
  destruct (Qeq_bool (M - m) 0) eqn:E.
  - apply Qeq_bool_iff in E. split; [reflexivity|]. split; [Lqa.lra | auto].
  - assert (~ M - m == 0).
    { intros H. apply Qeq_bool_iff in H. congruence. }
    split; [Lqa.lra|]. split; [Lqa.lra | auto].
Qed.

Lemma toX_Fin_chart (i : nat) :
  (2 <= length trends)%nat ->
  LineChart.toX trends i
  = Fin (55 + inject_Z (Z.of_nat i) / (inject_Z (Z.of_nat (length trends)) - 1)
              * (560 - 55 - 16)).
Proof.
  intros Hn. unfold LineChart.toX, LineChart.of_nat, JS.sub. simpl JS.add at 2.
  rewrite div_Fin; [reflexivity|].
  intros E. unfold Qeq in E. simpl in E. lia.
Qed.

Lemma toX_bounds (i : nat) :
  (2 <= length trends)%nat -> (i < length trends)%nat ->
  exists x, LineChart.toX trends i = Fin x /\ 55 <= x /\ x <= 544.
Proof.
  intros Hn Hi. rewrite toX_Fin_chart by assumption. eexists. split; [reflexivity|].
  set (n1 := inject_Z (Z.of_nat (length trends)) - 1).
  assert (Hn1 : n1 == inject_Z (Z.of_nat (length trends) - 1)).
  { unfold n1, Z.sub. rewrite inject_Z_plus. reflexivity. }
  destruct (Qdiv_bounds (inject_Z (Z.of_nat i)) n1) as [H0 H1].
  - rewrite Hn1. change 0 with (inject_Z 0). rewrite <- Zlt_Qlt. lia.
  - change 0 with (inject_Z 0). rewrite <- Zle_Qle. lia.
  - rewrite Hn1, <- Zle_Qle. lia.
  - split; Lqa.lra.
Qed.

Lemma toY_bounds (q : Q) :
  In (Fin q) (List.map JS.toNumber (LineChart.allV trends)) ->
  exists y, LineChart.toY trends (Fin q) = Fin y /\ 12 <= y /\ y <= 132.
Proof using Hfin.
  intros Hq.
  assert (Hne : LineChart.allV trends <> [])
    by (intros E; rewrite E in Hq; contradiction).
  destruct (chart_range Hne) as (m & M & r & Hm & HM & Hr & Hrpos & HMr & Hb).
  destruct (Hb q Hq) as [Hmq HqM].
  unfold LineChart.toY. rewrite Hm, Hr. unfold JS.sub. simpl JS.add at 3.
  rewrite div_Fin by Lqa.lra.
  eexists. split; [reflexivity|].
  destruct (Qdiv_bounds (q + - m) r) as [H0 H1]; [assumption | Lqa.lra | Lqa.lra |].
  split; Lqa.lra.
Qed.

(** X17.  With two or more points and finite values, every vertex of a
    series lies inside the plot area: x between 55 and 544, y between 12
    and 132. *)
Theorem chart_points_inside_plot (k : Key) (s : Series)
    (Hn : (2 <= length trends)%nat)
    (Hs : LineChart.series trends k = Some s) :
  forall x y, (x, y) ∈ polyline s ->
    exists qx qy, x = Fin qx /\ y = Fin qy /\
                  55 <= qx /\ qx <= 544 /\ 12 <= qy /\ qy <= 132.
Proof using Hfin.
  intros x y Hxy.
  apply series_inv in Hs as (_ & Hp & _). rewrite Hp, pts_present in Hxy.
  apply list_elem_of_fmap in Hxy as ([j v] & [= -> ->] & Hjv).
  apply present_elem in Hjv as (d & Hd & Ht & ->). simpl.
  destruct (toX_bounds j Hn) as (qx & Hx & Hx0 & Hx1);
    [eapply lookup_lt_Some; eassumption|].
  pose proof (allV_In trends j d k Hd Ht) as Hin.
  assert (Hdin : In d trends)
    by (apply list_elem_of_In, list_elem_of_lookup; eauto).
  destruct (Hfin d k Hdin) as [E | [q E]]; [rewrite E in Ht; discriminate|].
  destruct (toY_bounds q) as (qy & Hy & Hy0 & Hy1).
  { apply List.in_map_iff. exists (get d k). rewrite E in *. auto. }
  rewrite E. simpl JS.toNumber. exists qx, qy. auto 10.
Qed.

End FiniteValues.

Lemma chart_points_inside_plot_witness :
  (2 <= length gap_weeks)%nat /\
  exists s, LineChart.series gap_weeks Waigani = Some s /\
  forall x y, (x, y) ∈ polyline s ->
    exists qx qy, x = Fin qx /\ y = Fin qy /\
                  55 <= qx /\ qx <= 544 /\ 12 <= qy /\ qy <= 132.
Proof.
  split; [simpl; lia|].
  destruct (LineChart.series gap_weeks Waigani) as [s|] eqn:Hs.
  - exists s. split; [reflexivity|].
    apply (chart_points_inside_plot gap_weeks) with (k := Waigani).
    + intros d k [<- | [<- | [<- | []]]]; destruct k; simpl; eauto.
    + simpl. lia.
    + exact Hs.
  - vm_compute in Hs. discriminate Hs.
Defined.

(** X18.  With two or more points the x positions run from 55, for the
    first point, to 544, for the last, and grow strictly with the
    index. *)
Theorem chart_x_positions (trends : list TrendPoint) (i j : nat)
    (Hn : (2 <= length trends)%nat) (Hij : (i < j)%nat)
    (Hj : (j < length trends)%nat) :
  JS.compare (LineChart.toX trends 0) (Fin 55) = Some Eq /\
  JS.compare (LineChart.toX trends (length trends - 1)) (Fin 544) = Some Eq /\
  JS.lt (LineChart.toX trends i) (LineChart.toX trends j) = true.
Proof.
  rewrite !toX_Fin_chart by assumption.
  set (n1 := inject_Z (Z.of_nat (length trends)) - 1).
  assert (Hn1 : n1 == inject_Z (Z.of_nat (length trends - 1))).
  { unfold n1. rewrite Nat2Z.inj_sub by lia. unfold Z.sub.
    rewrite inject_Z_plus. reflexivity. }
  assert (Hpos : 0 < n1).
  { rewrite Hn1. change 0 with (inject_Z 0). rewrite <- Zlt_Qlt. lia. }
  split; [|split].
  - simpl JS.compare. f_equal. apply Qeq_alt. unfold Qdiv. ring.
  - simpl JS.compare. f_equal. apply Qeq_alt. rewrite <- Hn1. field. Lqa.lra.
  - apply lt_Fin.
    assert (H : inject_Z (Z.of_nat i) / n1 < inject_Z (Z.of_nat j) / n1).
    { unfold Qdiv. apply Qmult_lt_compat_r.
      - apply Qinv_lt_0_compat. assumption.
      - rewrite <- Zlt_Qlt. lia. }
    Lqa.lra.
Qed.

Lemma chart_x_positions_witness :
  JS.compare (LineChart.toX gap_weeks 0) (Fin 55) = Some Eq /\
  JS.compare (LineChart.toX gap_weeks (length gap_weeks - 1)) (Fin 544) = Some Eq /\
  JS.lt (LineChart.toX gap_weeks 1) (LineChart.toX gap_weeks 2) = true.
Proof. apply (chart_x_positions gap_weeks 1 2); simpl; lia. Defined.

Lemma present_nil_iff (trends : list TrendPoint) (k : Key) :
  LineChart.present trends k = [] <->
  forall d, In d trends -> JS.truthyV (get d k) = false.
Proof.
  split.
  - intros E d Hd. destruct (JS.truthyV (get d k)) eqn:Ht; [|reflexivity].
    apply list_elem_of_In, list_elem_of_lookup in Hd as [j Hj].
    assert (H : (j, JS.toNumber (get d k)) ∈ LineChart.present trends k)
      by (apply present_elem; eauto).
    rewrite E in H. apply elem_of_nil in H. contradiction.
  - intros H. destruct (LineChart.present trends k) as [|[j v] l] eqn:E; [reflexivity|].
    assert (Hjv : (j, v) ∈ LineChart.present trends k)
      by (rewrite E; apply list_elem_of_here).
    apply present_elem in Hjv as (d & Hd & Ht & _).
    rewrite H in Ht; [discriminate|].
    apply list_elem_of_In, list_elem_of_lookup. eauto.
Qed.

Lemma omap_length_le {A B : Type} (f : A -> option B) (l : list A) :
  (length (omap f l) <= length l)%nat.
Proof.
  induction l as [|a l IH]; [reflexivity|].
  change (omap f (a :: l))
    with (match f a with Some y => y :: omap f l | None => omap f l end).
  destruct (f a); cbn [length]; lia.
Qed.

Lemma series_omitted_none (trends : list TrendPoint) (k : Key) :
  (forall d, In d trends -> JS.truthyV (get d k) = false) ->
  LineChart.series trends k = None.
Proof.
  intros H. apply present_nil_iff in H. unfold LineChart.series.
  rewrite pts_present, H. reflexivity.
Qed.

(** X19.  A series is left out of the chart exactly when none of the
    points has a usable (non-zero, present) value for its key; otherwise
    it is drawn with one circle slot for every point. *)
Theorem series_omitted_iff_no_value (trends : list TrendPoint) (k : Key) :
  (LineChart.series trends k = None <->
   forall d, In d trends -> JS.truthyV (get d k) = false) /\
  (forall s, LineChart.series trends k = Some s ->
     length (circles s) = length trends /\
     length (polyline s) = length (LineChart.present trends k) /\
     (length (polyline s) <= length trends)%nat).
Proof.
  split.
  - rewrite <- present_nil_iff. unfold LineChart.series.
    rewrite pts_present.
    destruct (LineChart.present trends k) as [|p l]; simpl; split;
      intros; congruence.
  - intros s Hs. apply series_inv in Hs as (_ & Hp & Hc).
    rewrite Hc, Hp, pts_present, length_imap, length_fmap.
    split; [reflexivity|]. split; [reflexivity|].
    unfold LineChart.present.
    etransitivity; [apply omap_length_le|]. rewrite length_imap. reflexivity.
Qed.

(** X20.  When points exist but none has a usable value, the chart is
    still drawn: no series, and all four gridlines at [NaN], because the
    minimum is [Infinity] and the range [-Infinity]. *)
Theorem chart_without_values (trends : list TrendPoint)
    (Hne : trends <> [])
    (Hno : forall d k, In d trends -> JS.truthyV (get d k) = false) :
  LineChart.minV trends = JS.PInf /\ LineChart.maxV trends = JS.NInf /\
  LineChart.range trends = JS.NInf /\
  exists xlabels,
    LineChart.render trends
    = Chart (replicate 4 {| g_y := NaN; g_label := NaN |})
            [None; None; None] xlabels /\
    length xlabels = length trends.
Proof.
  assert (Hall : LineChart.allV trends = []).
  { destruct (LineChart.allV trends) as [|v l] eqn:E; [reflexivity|].
    assert (Hv : In v (LineChart.allV trends)) by (rewrite E; left; reflexivity).
    apply allV_elem in Hv as (d & k & Hd & -> & Ht).
    rewrite Hno in Ht by assumption. discriminate. }
  assert (Hm : LineChart.minV trends = JS.PInf)
    by (unfold LineChart.minV; rewrite Hall; reflexivity).
  assert (HM : LineChart.maxV trends = JS.NInf)
    by (unfold LineChart.maxV; rewrite Hall; reflexivity).
  assert (Hr : LineChart.range trends = JS.NInf)
    by (unfold LineChart.range; rewrite Hm, HM; reflexivity).
  split; [exact Hm|]. split; [exact HM|]. split; [exact Hr|].
  eexists. split.
  - rewrite render_nonempty by assumption. f_equal.
    + unfold LineChart.gridline, LineChart.toY. rewrite Hm, Hr. reflexivity.
    + assert (Hs : forall k, LineChart.series trends k = None).
      { intros k. apply series_omitted_none. intros d Hd. apply Hno, Hd. }
      simpl. rewrite !Hs. reflexivity.
  - apply length_imap.
Qed.

(** ** The listings table offline *)

Lemma in_cond_filter {A : Type} (b : bool) (p : A -> bool) (l : list A) (x : A) :
  In x (if b then List.filter p l else l) <-> In x l /\ (b = true -> p x = true).
Proof.
  destruct b.
  - rewrite List.filter_In. intuition.
  - intuition discriminate.
Qed.

Lemma has_label_iff (mv : Label) (l : ListingItem) :
  ListingsView.has_label mv l = true <->
  exists m, market_value (item l) = Some m /\ label m = mv.
Proof.
  unfold ListingsView.has_label. destruct (market_value (item l)) as [m|].
  - rewrite Label_eqb_eq. split; [eauto|]. intros (m' & [= <-] & H). exact H.
  - split; [discriminate|]. intros (m & H & _). discriminate.
Qed.

Lemma slice_length {A : Type} (a : nat) (ls : list A) :
  (length (ListingsView.slice a (a + 25) ls) <= 25)%nat.
Proof.
  unfold ListingsView.slice. rewrite length_take. lia.
Qed.

(** X21.  Offline, the table holds exactly the mock listings that pass
    every active filter (suburb, source as a case-insensitive substring,
    type, market-value label), [total] is their number, a page has at
    most 25 of them, and the price bounds and the sort field change
    nothing. *)
Theorem fallback_listings_match_filters (f : Filters) (mock : list ListingItem) :
  let r := ListingsView.load f None mock in
  (forall l,
     In l (ListingsView.filtered f mock) <->
     In l mock /\
     (f_suburb f <> ""%string -> suburb (item l) = f_suburb f) /\
     (f_source f <> ""%string ->
      includes (toLowerCase (source_site l)) (toLowerCase (f_source f)) = true) /\
     (f_type f <> ""%string -> property_type l = f_type f) /\
     (forall mv, f_mvFilter f = Some mv ->
        exists m, market_value (item l) = Some m /\ label m = mv)) /\
  (forall l, In l (loaded_listings r) -> In l (ListingsView.filtered f mock)) /\
  loaded_total r = length (ListingsView.filtered f mock) /\
  (length (loaded_listings r) <= 25)%nat /\
  (forall lo hi srt,
     ListingsView.load (ListingsView.with_prices lo hi srt f) None mock = r).
Proof.
  intros r. split; [|split; [|split; [|split]]].
  - intros l. unfold ListingsView.filtered.
    assert (Hmv : forall ls,
               In l (match f_mvFilter f with
                     | Some mv => List.filter (ListingsView.has_label mv) ls
                     | None => ls
                     end) <->
               In l ls /\ (forall mv, f_mvFilter f = Some mv ->
                            exists m, market_value (item l) = Some m /\ label m = mv)).
    { intros ls. destruct (f_mvFilter f) as [mv|].
      - rewrite List.filter_In, has_label_iff. split.
        + intros [H1 H2]. split; [assumption|]. intros mv' [= <-]. assumption.
        + intros [H1 H2]. split; [assumption|]. apply H2. reflexivity.
      - split; [intros H; split; [assumption | discriminate] | intros [H _]; assumption]. }
    rewrite Hmv, !in_cond_filter.
    unfold ListingsView.nonempty.
    rewrite !negb_true_iff, !String.eqb_neq, !String.eqb_eq. tauto.
  - intros l Hl. unfold r, ListingsView.load, ListingsView.slice in Hl.
    cbn [loaded_listings] in Hl. apply In_take in Hl.
    rewrite <- (List.firstn_skipn ((Pos.to_nat (f_page f) - 1) * 25)
                  (ListingsView.filtered f mock)).
    apply in_or_app. right. exact Hl.
  - reflexivity.
  - apply slice_length.
  - reflexivity.
Qed.

(** The rows of the page of index [p] (from 0) of a list. *)
Lemma pages_cover {A : Type} (k : nat) (l : list A) :
  (length l <= 25 * k)%nat ->
  concat (List.map (fun p => ListingsView.slice (p * 25) (p * 25 + 25) l) (seq 0 k))
  = l.
Proof.
  revert l. induction k as [|k IH]; intros l Hl.
  - destruct l; [reflexivity | simpl in Hl; lia].
  - cbn [seq]. rewrite <- List.seq_shift. cbn [List.map].
    rewrite List.map_map. cbn [concat].
    transitivity (take 25 l ++ drop 25 l); [|apply List.firstn_skipn].
    apply (f_equal (app (take 25 l))).
    etransitivity; [|apply (IH (drop 25 l)); rewrite length_drop; lia].
    f_equal. apply List.map_ext. intros p. unfold ListingsView.slice.
    rewrite drop_drop. do 2 f_equal; lia.
Qed.

Lemma ceil_25 (n : nat) : (n <= 25 * ((n + 24) / 25))%nat.
Proof.
  pose proof (Nat.div_mod_eq (n + 24) 25) as H.
  pose proof (Nat.mod_upper_bound (n + 24) 25). lia.
Qed.


Lemma chart_without_values_witness :
  let trends := [tp "Jan 19" None (Some (Fin 0)) None] in
  LineChart.minV trends = JS.PInf /\ LineChart.maxV trends = JS.NInf /\
  LineChart.range trends = JS.NInf /\
  exists xlabels,
    LineChart.render trends
    = Chart (replicate 4 {| g_y := NaN; g_label := NaN |})
            [None; None; None] xlabels /\
    length xlabels = length trends.
Proof.
  apply (chart_without_values [tp "Jan 19" None (Some (Fin 0)) None]).
  - discriminate.
  - intros d k [<- | []]. destruct k; reflexivity.
Defined.

(** ** More on the scrape job panel *)

Section PanelInvariants.

Import ScrapePanel.

Lemma commit_fields (w : Panel) :
  job (commit w) = job w /\ polling (commit w) = polling w /\
  mounted (commit w) = mounted w.
Proof.
  unfold commit. destruct (mounted w) eqn:Hm; [|auto].
  destruct (decide _); [auto|].
  unfold run_effect.
  destruct (cleanup w); simpl;
    destruct (if polling w then id_truthy (job_id_of (job w)) else None);
    simpl; auto.
Qed.

Lemma run_effect_committed (w : Panel) :
  timers w = [] ->
  let w' := run_effect (polling w, job_id_of (job w)) w in
  timer_of_deps w' /\ deps w' = (polling w', job_id_of (job w')).
Proof.
  intros Ht. unfold run_effect.
  destruct (if polling w then id_truthy (job_id_of (job w)) else None)
    as [jid|] eqn:Ej; simpl.
  - split; [|reflexivity].
    intros id jid'. simpl. rewrite Ht. intros [= <- <-].
    destruct (polling w); [auto | discriminate].
  - split; [|reflexivity].
    intros id jid'. simpl. rewrite Ht. discriminate.
Qed.

Lemma commit_committed (w : Panel) :
  one_timer w -> timer_of_deps w ->
  timer_of_deps (commit w) /\ committed (commit w).
Proof.
  intros Hw Ht. unfold commit. cbv zeta. destruct (mounted w) eqn:Hm.
  2: { split; [assumption|]. intros H. congruence. }
  destruct (decide _) as [E|E].
  { split; [assumption|]. intros _. symmetry. exact E. }
  destruct (cleanup w) eqn:Hc.
  - destruct (run_effect_committed (clearInterval_pollRef w)) as [H1 H2];
      [apply clear_timers, Hw|].
    split; [exact H1 | intros _; exact H2].
  - destruct (run_effect_committed w) as [H1 H2].
    { destruct Hw as [H | (id & jid & _ & _ & Hc' & _)]; [auto | congruence]. }
    split; [exact H1 | intros _; exact H2].
Qed.

Lemma timer_of_deps_ext (w w' : Panel) :
  timers w' = timers w -> deps w' = deps w -> timer_of_deps w -> timer_of_deps w'.
Proof. unfold timer_of_deps. intros -> ->. auto. Qed.

Lemma committed_ext (w w' : Panel) :
  mounted w' = mounted w -> deps w' = deps w -> polling w' = polling w ->
  job w' = job w -> committed w -> committed w'.
Proof. unfold committed. intros -> -> -> ->. auto. Qed.

Lemma no_timer_of_deps (w : Panel) : timers w = [] -> timer_of_deps w.
Proof. intros H id jid. rewrite H. discriminate. Qed.

Lemma unmounted_committed (w : Panel) : mounted w = false -> committed w.
Proof. intros H H'. congruence. Qed.

Lemma setJob_timer_of_deps (j : option Job) (w : Panel) :
  timer_of_deps w -> timer_of_deps (setJob j w).
Proof.
  apply timer_of_deps_ext; unfold setJob; destruct (mounted w); reflexivity.
Qed.

Lemma setPolling_timer_of_deps (b : bool) (w : Panel) :
  timer_of_deps w -> timer_of_deps (setPolling b w).
Proof.
  apply timer_of_deps_ext; unfold setPolling; destruct (mounted w); reflexivity.
Qed.

Lemma step_committed (e : Event) (w w' : Panel) :
  one_timer w -> timer_of_deps w -> committed w ->
  step e w = Some w' -> timer_of_deps w' /\ committed w'.
Proof.
  intros Hw Ht Hc. destruct e as [src|n| |data|id|d| |]; simpl.
  - destruct (_ && _); intros [= <-]. split.
    + revert Ht. apply timer_of_deps_ext; reflexivity.
    + revert Hc. apply committed_ext; reflexivity.
  - destruct (_ && _); intros [= <-]. split.
    + revert Ht. apply timer_of_deps_ext; reflexivity.
    + revert Hc. apply committed_ext; reflexivity.
  - destruct (_ && _); intros [= <-]. split.
    + revert Ht. apply timer_of_deps_ext; reflexivity.
    + revert Hc. apply committed_ext; reflexivity.
  - destruct (pending_trigger w) as [|m]; [discriminate|].
    destruct data as [j|]; intros [= <-].
    + apply commit_committed.
      * apply setPolling_one_timer, setJob_one_timer, add_requests_one_timer, Hw.
      * apply setPolling_timer_of_deps, setJob_timer_of_deps.
        revert Ht. apply timer_of_deps_ext; reflexivity.
    + split.
      * revert Ht. apply timer_of_deps_ext; reflexivity.
      * revert Hc. apply committed_ext; reflexivity.
  - destruct (List.find _ _) as [[? jid]|]; intros [= <-]. split.
    + revert Ht. apply timer_of_deps_ext; reflexivity.
    + revert Hc. apply committed_ext; reflexivity.
  - destruct (pending_status w) as [|m]; [discriminate|].
    destruct d as [j|].
    2: { intros [= <-]. split.
         - revert Ht. apply timer_of_deps_ext; reflexivity.
         - revert Hc. apply committed_ext; reflexivity. }
    destruct (terminal (status j)); intros [= <-]; apply commit_committed.
    + left. apply clear_timers, setPolling_one_timer, setJob_one_timer,
        add_requests_one_timer, Hw.
    + apply no_timer_of_deps, clear_timers, setPolling_one_timer,
        setJob_one_timer, add_requests_one_timer, Hw.
    + apply setJob_one_timer, add_requests_one_timer, Hw.
    + apply setJob_timer_of_deps. revert Ht. apply timer_of_deps_ext; reflexivity.
  - destruct (job w); [|discriminate]. destruct (_ && _); intros [= <-].
    destruct (unmount_torn_down (setJob None w) (setJob_one_timer None w Hw))
      as [H1 H2].
    split; [apply no_timer_of_deps, H1 | apply unmounted_committed, H2].
  - destruct (mounted w); intros [= <-].
    destruct (unmount_torn_down w Hw) as [H1 H2].
    split; [apply no_timer_of_deps, H1 | apply unmounted_committed, H2].
Qed.

Lemma run_committed (evs : list Event) (w w' : Panel) :
  one_timer w -> timer_of_deps w -> committed w ->
  run evs w = Some w' -> one_timer w' /\ timer_of_deps w' /\ committed w'.
Proof.
  revert w. induction evs as [|e evs IH]; simpl; intros w Hw Ht Hc.
  - intros [= <-]. auto.
  - destruct (step e w) as [w1|] eqn:E; [|discriminate].
    destruct (step_committed e w w1 Hw Ht Hc E) as [Ht1 Hc1].
    apply IH; [eapply step_one_timer; eassumption | assumption | assumption].
Qed.

(** X23.  In every state the panel can reach at most one interval timer
    is live; while one is, the panel is mounted and polling, the ref
    holds the timer's id, and the id the timer asks the status of is the
    non-empty id of the job the panel holds. *)
Theorem timer_polls_current_job (evs : list Event) (w : Panel)
    (Hreach : run evs init = Some w) :
  (length (timers w) <= 1)%nat /\
  forall id jid, In (id, jid) (timers w) ->
    mounted w = true /\ polling w = true /\ pollRef w = Some id /\
    jid <> ""%string /\
    exists j, job w = Some j /\ job_id j = Some jid.
Proof.
  destruct (run_committed evs init w) as (Hw & Ht & Hc); try assumption.
  { left. reflexivity. }
  { apply no_timer_of_deps. reflexivity. }
  { intros _. reflexivity. }
  destruct Hw as [E | (id0 & jid0 & E & Hp & _ & Hm)].
  - rewrite E. split; [simpl; lia | intros ? ? []].
  - rewrite E. split; [simpl; lia|].
    intros id jid [[= <- <-] | []].
    destruct (Ht id0 jid0 E) as [H1 H2]. rewrite (Hc Hm) in H1, H2.
    simpl in H1, H2. split; [assumption|]. split; [assumption|].
    split; [assumption|].
    destruct (job w) as [j|]; [|discriminate]. simpl in H2.
    destruct (job_id j) as [s|] eqn:Ejid; [|discriminate]. simpl in H2.
    destruct (String.eqb s "") eqn:Es; [discriminate|].
    injection H2 as <-. split; [apply String.eqb_neq, Es|].
    exists j. split; [reflexivity | exact Ejid].
Qed.

Lemma timer_polls_current_job_witness :
  (length (timers (after polled_twice)) <= 1)%nat /\
  forall id jid, In (id, jid) (timers (after polled_twice)) ->
    mounted (after polled_twice) = true /\
    polling (after polled_twice) = true /\
    pollRef (after polled_twice) = Some id /\
    jid <> ""%string /\
    exists j, job (after polled_twice) = Some j /\ job_id j = Some jid.
Proof.
  apply (timer_polls_current_job polled_twice). vm_compute. reflexivity.
Defined.

(** X24.  Once polling has stopped, a late answer that still carries a
    non-terminal status replaces the job shown but does not start the
    poll again: the panel shows that job with no dismiss button, is not
    polling and has no timer. *)
Theorem late_answer_is_shown_not_polled (w : Panel) (n : nat) (j : Job)
    (Hs : stopped w) (Hm : mounted w = true)
    (Hp : pending_status w = S n) (Hj : terminal (status j) = false) :
  exists w',
    step (StatusResponse (Some j)) w = Some w' /\
    job w' = Some j /\ polling w' = false /\ timers w' = [] /\
    render w' = JobView j None.
Proof.
  simpl. rewrite Hp, Hj. eexists. split; [reflexivity|].
  set (w0 := add_requests (pending_trigger w) n (status_requests w) w).
  assert (Hs0 : stopped w0) by (revert Hs; apply stopped_ext; reflexivity).
  assert (Hm0 : mounted w0 = true) by exact Hm.
  destruct (commit_stopped _ (setJob_stopped (Some j) _ Hs0)) as [[Ht Hpol] _].
  destruct (commit_fields (setJob (Some j) w0)) as (Hjob & _ & Hmm).
  assert (Hset : job (setJob (Some j) w0) = Some j /\
                 mounted (setJob (Some j) w0) = true)
    by (unfold setJob; rewrite Hm0; auto).
  destruct Hset as [Hset Hsm].
  rewrite Hset in Hjob. rewrite Hsm in Hmm.
  split; [assumption|]. split; [auto|]. split; [assumption|].
  unfold render. rewrite Hjob, Hj. reflexivity.
Qed.

Lemma late_answer_is_shown_not_polled_witness :
  exists w',
    step (StatusResponse (Some (job1 running 40))) (after answered_out_of_order)
    = Some w' /\
    job w' = Some (job1 running 40) /\ polling w' = false /\ timers w' = [] /\
    render w' = JobView (job1 running 40) None.
Proof.
  apply (late_answer_is_shown_not_polled (after answered_out_of_order) 0).
  - split; [vm_compute; reflexivity | intros _; vm_compute; reflexivity].
  - vm_compute. reflexivity.
  - vm_compute. reflexivity.
  - reflexivity.
Defined.

(** X25.  The start button stays enabled while a trigger request is in
    flight: whenever a click on it is accepted, a second click right
    after is accepted too and sends a second trigger request. *)
Theorem start_accepted_twice (w w1 : Panel)
    (H : step ClickStart w = Some w1) :
  exists w2,
    step ClickStart w1 = Some w2 /\
    pending_trigger w1 = S (pending_trigger w) /\
    pending_trigger w2 = S (S (pending_trigger w)) /\
    job w2 = None.
Proof.
  simpl in H.
  destruct (mounted w) eqn:Hm; [|discriminate].
  destruct (job w) as [j|] eqn:Hj; [discriminate|].
  destruct (negb (length (sources w) =? 0)%nat) eqn:Hsrc; [|discriminate].
  injection H as <-. simpl. rewrite Hm, Hj, Hsrc. simpl.
  eexists. split; [reflexivity|]. auto.
Qed.

Lemma start_accepted_twice_witness :
  exists w2,
    step ClickStart (after triggered) = Some w2 /\
    pending_trigger (after triggered) = S (pending_trigger init) /\
    pending_trigger w2 = S (S (pending_trigger init)) /\
    job w2 = None.
Proof.
  apply (start_accepted_twice init (after triggered)). vm_compute. reflexivity.
Defined.

(** X26.  A trigger answer without a job id (absent or empty) is still
    accepted: on a mounted panel without a timer the job is set and
    polling is switched on, but no timer is started, so no tick can ever
    ask for its status; unless its status is terminal there is no
    dismiss button either. *)
Theorem trigger_answer_without_id (w : Panel) (n : nat) (j : Job)
    (Hm : mounted w = true) (Ht : timers w = [])
    (Hp : pending_trigger w = S n) (Hid : id_truthy (job_id j) = None) :
  exists w',
    step (TriggerResponse (Some j)) w = Some w' /\
    job w' = Some j /\ polling w' = true /\ timers w' = [] /\
    (forall id, step (Tick id) w' = None) /\
    (terminal (status j) = false -> render w' = JobView j None).
Proof.
  simpl. rewrite Hp. eexists. split; [reflexivity|].
  set (w0 := add_requests n (pending_status w) (status_requests w) w).
  set (w1 := setPolling true (setJob (Some j) w0)).
  assert (H1 : job w1 = Some j /\ polling w1 = true /\ timers w1 = [] /\
               mounted w1 = true).
  { unfold w1, w0, setPolling, setJob, add_requests. simpl.
    rewrite Hm. simpl. rewrite ?Hm. simpl. auto. }
  destruct H1 as (Hj1 & Hp1 & Ht1 & Hm1).
  destruct (commit_fields w1) as (Hj & Hpol & _).
  assert (Htc : timers (commit w1) = []).
  { unfold commit. rewrite Hm1. destruct (decide _); [assumption|].
    unfold run_effect.
    destruct (cleanup w1); simpl; rewrite Hp1, Hj1; simpl; rewrite Hid; simpl;
      rewrite ?Ht1; destruct (pollRef w1); reflexivity. }
  rewrite Hj1 in Hj. rewrite Hp1 in Hpol.
  split; [assumption|]. split; [assumption|]. split; [assumption|]. split.
  - intros id. simpl. rewrite Htc. reflexivity.
  - intros Hterm. unfold render. rewrite Hj, Hterm. reflexivity.
Qed.

Lemma trigger_answer_without_id_witness :
  let no_id := {| job_id := None; status := queued; progress := 0; collected := 0 |} in
  exists w',
    step (TriggerResponse (Some no_id)) (after triggered) = Some w' /\
    job w' = Some no_id /\ polling w' = true /\ timers w' = [] /\
    (forall id, step (Tick id) w' = None) /\
    (terminal (status no_id) = false -> render w' = JobView no_id None).
Proof.
  intros no_id.
  apply (trigger_answer_without_id (after triggered) 0 no_id);
    vm_compute; reflexivity.
Defined.

(** X27.  Toggling a source keeps the selection free of duplicates,
    flips whether that source is selected, and leaves every other
    source as it was. *)
Theorem toggleSrc_flips_one (src : string) (p : list string)
    (Hnd : List.NoDup p) :
  List.NoDup (toggleSrc src p) /\
  (In src (toggleSrc src p) <-> ~ In src p) /\
  (forall x, x <> src -> (In x (toggleSrc src p) <-> In x p)).
Proof.
  unfold toggleSrc. destruct (existsb (String.eqb src) p) eqn:E.
  - assert (Hin : In src p).
    { apply List.existsb_exists in E as (x & Hx & Hxs).
      apply String.eqb_eq in Hxs. subst x. assumption. }
    split; [apply List.NoDup_filter; assumption|]. split.
    + rewrite List.filter_In, negb_true_iff, String.eqb_neq. tauto.
    + intros x Hx. rewrite List.filter_In, negb_true_iff, String.eqb_neq. tauto.
  - assert (Hnin : ~ In src p).
    { intros Hin. rewrite <- not_true_iff_false in E. apply E.
      apply List.existsb_exists. exists src. split; [assumption|].
      apply String.eqb_refl. }
    split; [|split].
    + apply List.NoDup_app; [assumption | |].
      * constructor; [intros [] | constructor].
      * intros x Hx [<- | []]. contradiction.
    + rewrite List.in_app_iff. simpl. tauto.
    + intros x Hx. rewrite List.in_app_iff. simpl. split; [|tauto].
      intros [H | [H | []]]; [assumption | congruence].
Qed.

Lemma toggleSrc_flips_one_witness :
  List.NoDup (toggleSrc "facebook" (sources init)) /\
  (In "facebook"%string (toggleSrc "facebook" (sources init))
   <-> ~ In "facebook"%string (sources init)) /\
  (forall x, x <> "facebook"%string ->
     (In x (toggleSrc "facebook" (sources init)) <-> In x (sources init))).
Proof.
  apply (toggleSrc_flips_one "facebook" (sources init)).
  apply NoDup_ListNoDup. apply (bool_decide_unpack _). vm_compute. exact I.
Defined.

End PanelInvariants.

(** The source filter ignores case and matches inside the name; the
    second page of three listings is empty though [total] is 2. *)
Lemma fallback_example :
  let mock := [item_at "Waigani" "Ray White PNG" "House" 5000 4470;
               item_at "Boroko" "Hausples" "Apartment" 2500 3150;
               item_at "Koki" "Ray White PNG" "House" 2900 2900] in
  let f p := {| f_page := p; f_suburb := ""; f_source := "ray";
                f_type := ""; f_minPrice := "9000"; f_maxPrice := "";
                f_mvFilter := None; f_sort := "scraped_at" |} in
  List.map (fun l => suburb (item l))
           (loaded_listings (ListingsView.load (f 1%positive) None mock))
  = ["Waigani"; "Koki"]%string /\
  loaded_pages (ListingsView.load (f 1%positive) None mock) = 1%nat /\
  loaded_listings (ListingsView.load (f 2%positive) None mock) = [] /\
  loaded_total (ListingsView.load (f 2%positive) None mock) = 2%nat.
Proof. repeat split; vm_compute; reflexivity. Qed.
